(** * Canvas Builder API: the session registry and its request handlers

    A shallow embedding of [backend/src/routes/canvas.js] together with
    the properties of the canvas session engine that the specification
    states about it.

    The handlers are functions from the registry (the module-level object
    [canvases]) and a request to a response and the next registry.  The
    values a request body carries are JavaScript values; the operations
    the handlers apply to them ([!v], [v === undefined], [parseInt],
    [a || b], destructuring defaults) are written out below. *)

From Stdlib Require Import ZArith Lia Bool Ascii String.
From stdpp Require Import base strings list gmap fin_maps pretty.

Open Scope string_scope.
Open Scope Z_scope.

(** ** JavaScript values *)

Module JS.

(** Numbers.  The model keeps the integer-valued numbers and [NaN]; an
    integer stands for the number of that value (numbers are exact up to
    2^53, far above every dimension the handlers accept).  Fractions and
    infinities are left out. *)
Inductive jsnum : Type :=
| Num (z : Z)
| NaN.

Inductive jsval : Type :=
| JUndefined
| JNull
| JBool (b : bool)
| JNumber (n : jsnum)
| JString (s : string).

#[global] Instance jsnum_eq_dec : EqDecision jsnum.
Proof. solve_decision. Defined.

#[global] Instance jsval_eq_dec : EqDecision jsval.
Proof. solve_decision. Defined.

(** [ToBoolean]: the falsy values are [undefined], [null], [false], [0],
    [NaN] and the empty string. *)
Definition truthy (v : jsval) : bool :=
  match v with
  | JUndefined | JNull => false
  | JBool b => b
  | JNumber (Num z) => negb (z =? 0)
  | JNumber NaN => false
  | JString s => negb (String.eqb s "")
  end.

(** [!v] *)
Definition not (v : jsval) : bool := negb (truthy v).

(** [v === undefined] *)
Definition is_undefined (v : jsval) : bool :=
  match v with JUndefined => true | _ => false end.

(** [a || b] *)
Definition or (a b : jsval) : jsval := if truthy a then a else b.

(** A destructuring default [{ k = d }] applies exactly when the property
    is [undefined]. *)
Definition default_to (d v : jsval) : jsval :=
  if is_undefined v then d else v.

(** Relational operators on numbers: any comparison with [NaN] is false. *)
Definition le (a b : jsnum) : bool :=
  match a, b with Num x, Num y => x <=? y | _, _ => false end.

Definition gt (a b : jsnum) : bool :=
  match a, b with Num x, Num y => y <? x | _, _ => false end.

(** *** Numerals *)

Definition is_white (a : ascii) : bool :=
  let n := Z.of_nat (nat_of_ascii a) in
  (n =? 32) || ((9 <=? n) && (n <=? 13)).

Fixpoint skip_white (s : string) : string :=
  match s with
  | String a r => if is_white a then skip_white r else s
  | EmptyString => s
  end.

(** The value of a digit in the given radix, if it is one. *)
Definition digit_value (radix : Z) (a : ascii) : option Z :=
  let n := Z.of_nat (nat_of_ascii a) in
  let d := if (48 <=? n) && (n <=? 57) then n - 48
           else if (97 <=? n) && (n <=? 122) then n - 87
           else if (65 <=? n) && (n <=? 90) then n - 55
           else radix in
  if d <? radix then Some d else None.

(** The longest prefix of digits, read in [radix]; [acc] is [None] until
    the first digit has been seen. *)
Fixpoint read_digits (radix : Z) (acc : option Z) (s : string) : option Z :=
  match s with
  | String a r =>
      match digit_value radix a with
      | Some d => read_digits radix (Some (radix * default 0 acc + d)) r
      | None => acc
      end
  | EmptyString => acc
  end.

Definition strip_sign (s : string) : bool * string :=
  match s with
  | String "-" r => (true, r)
  | String "+" r => (false, r)
  | _ => (false, s)
  end.

Definition strip_hex_prefix (s : string) : option string :=
  match s with
  | String "0" (String "x" r) | String "0" (String "X" r) => Some r
  | _ => None
  end.

(** [parseInt] on a string: leading white space, an optional sign, an
    optional [0x], then the longest run of digits; [NaN] when there is
    none. *)
Definition parseInt_string (s : string) : jsnum :=
  let '(neg, body) := strip_sign (skip_white s) in
  let magnitude :=
    match strip_hex_prefix body with
    | Some r => read_digits 16 None r
    | None => read_digits 10 None body
    end in
  match magnitude with
  | Some m => Num (if neg then - m else m)
  | None => NaN
  end.

(** [ToString] *)
Definition to_string (v : jsval) : string :=
  match v with
  | JUndefined => "undefined"
  | JNull => "null"
  | JBool true => "true"
  | JBool false => "false"
  | JNumber (Num z) => pretty z
  | JNumber NaN => "NaN"
  | JString s => s
  end.

(** [parseInt(v)] converts its argument to a string and reads an integer
    off its front.  An integer prints as its decimal numeral (below 10^21,
    where the exponent notation starts), which reads back as itself; the
    words [undefined], [null], [true], [false] and [NaN] start with no
    digit. *)
Definition parseInt (v : jsval) : jsnum :=
  match v with
  | JNumber n => n
  | JString s => parseInt_string s
  | JUndefined | JNull | JBool _ => NaN
  end.

(** [ToNumber], the conversion the drawing primitives apply to their
    arguments.  A string must be a numeral as a whole (after trimming
    white space); the empty string is [0].  Of the numerals, the decimal
    and the hexadecimal integers are read. *)
Fixpoint all_white (s : string) : bool :=
  match s with
  | String a r => is_white a && all_white r
  | EmptyString => true
  end.

Fixpoint read_all_digits (radix : Z) (acc : option Z) (s : string) : option Z :=
  match s with
  | String a r =>
      match digit_value radix a with
      | Some d => read_all_digits radix (Some (radix * default 0 acc + d)) r
      | None => if all_white s then acc else None
      end
  | EmptyString => acc
  end.

Definition to_number_string (s : string) : jsnum :=
  let t := skip_white s in
  match t with
  | EmptyString => Num 0
  | _ =>
      match strip_hex_prefix t with
      | Some r =>
          match read_all_digits 16 None r with Some m => Num m | None => NaN end
      | None =>
          let '(neg, body) := strip_sign t in
          match read_all_digits 10 None body with
          | Some m => Num (if neg then - m else m)
          | None => NaN
          end
      end
  end.

Definition to_number (v : jsval) : jsnum :=
  match v with
  | JUndefined => NaN
  | JNull => Num 0
  | JBool b => Num (if b then 1 else 0)
  | JNumber n => n
  | JString s => to_number_string s
  end.

(** A request body ([req.body]): the properties the client sent.  Reading
    a property that is not there gives [undefined]. *)
Definition object : Type := gmap string jsval.

Definition get (o : object) (k : string) : jsval := default JUndefined (o !! k).

End JS.

(** ** The drawing surface

    [createCanvas], the 2D context and [toBuffer] come from the graphics
    library the handlers call.  The surface is a pixel buffer of fixed
    dimensions together with the state of its one 2D context
    ([getContext('2d')] hands out the same context on every call, so what a
    handler assigns to it stays assigned). *)

Module Canvas.

Import JS.

Record rgba : Type := RGBA { red : Z; green : Z; blue : Z; alpha : Z }.

#[global] Instance rgba_eq_dec : EqDecision rgba.
Proof. solve_decision. Defined.

Definition transparent : rgba := RGBA 0 0 0 0.
Definition white : rgba := RGBA 255 255 255 255.
Definition black : rgba := RGBA 0 0 0 255.

(** Colours written [#rrggbb] or [#rgb]. *)
Definition hex2 (a b : ascii) : option Z :=
  match digit_value 16 a, digit_value 16 b with
  | Some h, Some l => Some (16 * h + l)
  | _, _ => None
  end.

Definition parse_hex_color (s : string) : option rgba :=
  match s with
  | String "#" (String r1 (String r2 (String g1 (String g2
      (String b1 (String b2 EmptyString)))))) =>
      match hex2 r1 r2, hex2 g1 g2, hex2 b1 b2 with
      | Some r, Some g, Some b => Some (RGBA r g b 255)
      | _, _, _ => None
      end
  | String "#" (String r (String g (String b EmptyString))) =>
      match hex2 r r, hex2 g g, hex2 b b with
      | Some r, Some g, Some b => Some (RGBA r g b 255)
      | _, _, _ => None
      end
  | _ => None
  end.

(** A decoded image: what [loadImage] resolves to. *)
Record image : Type := Image {
  img_width : Z;
  img_height : Z;
  img_pixels : Z -> Z -> rgba
}.

(** The rasterisation of arcs, text runs and scaled images, the colours
    of style strings other than hex triples and the fonts that exist are
    the graphics library's and stay parameters.  Each primitive is taken
    as the set of pixels it paints and the colour it paints them with. *)
Class Rasterizer : Type := {
  (** the colour of a colour string other than a hex triple, if it is one *)
  named_color : string -> option rgba;
  (** whether a font shorthand such as [16px Arial] parses *)
  font_known : string -> bool;
  (** the pixels inside the full circle of centre [(x,y)] and radius [r] *)
  disc_covers : jsnum -> jsnum -> jsnum -> Z -> Z -> bool;
  (** the pixels on its outline, drawn with the given line width *)
  ring_covers : Z -> jsnum -> jsnum -> jsnum -> Z -> Z -> bool;
  (** the pixels of a text run: font, alignment, baseline, text, anchor *)
  text_covers : string -> string -> string -> string -> jsnum -> jsnum ->
                Z -> Z -> bool;
  (** the image scaled into the box [(x,y,w,h)]: the colour it puts on a
      pixel, if the pixel is in the box *)
  image_at : image -> jsnum -> jsnum -> jsnum -> jsnum -> Z -> Z -> option rgba
}.

(** The state of the 2D context. *)
Record context2d : Type := Context2d {
  fillStyle : rgba;
  strokeStyle : rgba;
  lineWidth : Z;
  font : string;
  textAlign : string;
  textBaseline : string;
  (** the current path: the arcs added since the last [beginPath] *)
  path : list (jsnum * jsnum * jsnum)
}.

Definition fresh_context : context2d :=
  {| fillStyle := black;
     strokeStyle := black;
     lineWidth := 1;
     font := "10px sans-serif";
     textAlign := "start";
     textBaseline := "alphabetic";
     path := [] |}.

Record canvas : Type := Canvas {
  width : Z;
  height : Z;
  pixels : Z -> Z -> rgba;
  context : context2d
}.

(** The library takes the dimensions as unsigned 32-bit integers, which
    makes [NaN] zero. *)
Definition to_uint32 (n : jsnum) : Z :=
  match n with Num z => z mod 2 ^ 32 | NaN => 0 end.

(** [createCanvas(w, h)]: a transparent surface. *)
Definition createCanvas (w h : jsnum) : canvas :=
  {| width := to_uint32 w;
     height := to_uint32 h;
     pixels := fun _ _ => transparent;
     context := fresh_context |}.

Definition with_context (f : context2d -> context2d) (c : canvas) : canvas :=
  {| width := width c; height := height c; pixels := pixels c;
     context := f (context c) |}.

(** [ctx.lineWidth = n]: a width that is not positive is ignored. *)
Definition set_lineWidth (n : Z) : canvas -> canvas :=
  with_context (fun k =>
    if 0 <? n
    then Context2d (fillStyle k) (strokeStyle k) n (font k) (textAlign k)
                   (textBaseline k) (path k)
    else k).

Definition text_aligns : list string :=
  ["left"; "right"; "center"; "start"; "end"].

Definition text_baselines : list string :=
  ["top"; "hanging"; "middle"; "alphabetic"; "ideographic"; "bottom"].

(** [ctx.textAlign = v] and [ctx.textBaseline = s]: a value that is not
    one of the keywords is ignored. *)
Definition set_textAlign (v : jsval) : canvas -> canvas :=
  with_context (fun k =>
    if bool_decide (to_string v ∈ text_aligns)
    then Context2d (fillStyle k) (strokeStyle k) (lineWidth k) (font k)
                   (to_string v) (textBaseline k) (path k)
    else k).

Definition set_textBaseline (s : string) : canvas -> canvas :=
  with_context (fun k =>
    if bool_decide (s ∈ text_baselines)
    then Context2d (fillStyle k) (strokeStyle k) (lineWidth k) (font k)
                   (textAlign k) s (path k)
    else k).

(** [ctx.beginPath()] *)
Definition beginPath : canvas -> canvas :=
  with_context (fun k =>
    Context2d (fillStyle k) (strokeStyle k) (lineWidth k) (font k)
              (textAlign k) (textBaseline k) []).

(** [ctx.arc(x, y, r, 0, 2 * Math.PI)]: nothing is added when an argument
    is not a finite number. *)
Definition arc (x y r : jsval) : canvas -> canvas :=
  with_context (fun k =>
    match to_number x, to_number y, to_number r with
    | Num _, Num _, Num _ =>
        Context2d (fillStyle k) (strokeStyle k) (lineWidth k) (font k)
                  (textAlign k) (textBaseline k)
                  (path k ++ [(to_number x, to_number y, to_number r)])
    | _, _, _ => k
    end).

(** *** Painting *)

(** What one primitive paints: for each pixel, the colour put there, if
    any.  Painting is by overwrite and clipped to the surface. *)
Definition layer : Type := Z -> Z -> option rgba.

Definition inside (c : canvas) (px py : Z) : bool :=
  (0 <=? px) && (px <? width c) && (0 <=? py) && (py <? height c).

Definition composite (l : layer) (c : canvas) : canvas :=
  {| width := width c;
     height := height c;
     pixels := fun px py =>
       if inside c px py
       then match l px py with Some k => k | None => pixels c px py end
       else pixels c px py;
     context := context c |}.

Definition mask (covers : Z -> Z -> bool) (k : rgba) : layer :=
  fun px py => if covers px py then Some k else None.

Definition no_paint : layer := fun _ _ => None.

(** The pixels from [a] to [a + len], whichever way round. *)
Definition in_span (a len p : Z) : bool :=
  (Z.min a (a + len) <=? p) && (p <? Z.max a (a + len)).

Definition in_box (x y w h px py : Z) : bool :=
  in_span x w px && in_span y h py.

(** The outline of the box, of width [lw], centred on its edges. *)
Definition on_outline (lw x y w h px py : Z) : bool :=
  let d := lw / 2 in
  let x0 := Z.min x (x + w) in let x1 := Z.max x (x + w) in
  let y0 := Z.min y (y + h) in let y1 := Z.max y (y + h) in
  ((x0 - d <=? px) && (px <? x1 + d) && (y0 - d <=? py) && (py <? y1 + d))
  && negb ((x0 + d <=? px) && (px <? x1 - d) &&
           (y0 + d <=? py) && (py <? y1 - d)).

Section Primitives.

Context {R : Rasterizer}.

(** The colour a style value denotes, if it is a colour string. *)
Definition css_color (v : jsval) : option rgba :=
  match v with
  | JString s =>
      match parse_hex_color s with
      | Some k => Some k
      | None => named_color s
      end
  | _ => None
  end.

(** [ctx.fillStyle = v] and [ctx.strokeStyle = v]: a value that is not a
    colour is ignored, and the style stays what it was. *)
Definition set_fillStyle (v : jsval) : canvas -> canvas :=
  with_context (fun k =>
    match css_color v with
    | Some color =>
        Context2d color (strokeStyle k) (lineWidth k) (font k) (textAlign k)
                  (textBaseline k) (path k)
    | None => k
    end).

Definition set_strokeStyle (v : jsval) : canvas -> canvas :=
  with_context (fun k =>
    match css_color v with
    | Some color =>
        Context2d (fillStyle k) color (lineWidth k) (font k) (textAlign k)
                  (textBaseline k) (path k)
    | None => k
    end).

(** [ctx.font = s]: a shorthand that does not parse is ignored. *)
Definition set_font (s : string) : canvas -> canvas :=
  with_context (fun k =>
    if font_known s
    then Context2d (fillStyle k) (strokeStyle k) (lineWidth k) s (textAlign k)
                   (textBaseline k) (path k)
    else k).

(** What [fillRect(x, y, w, h)] paints with the current fill style. *)
Definition fillRect_layer (k : context2d) (x y w h : jsval) : layer :=
  match to_number x, to_number y, to_number w, to_number h with
  | Num x, Num y, Num w, Num h => mask (in_box x y w h) (fillStyle k)
  | _, _, _, _ => no_paint
  end.

Definition strokeRect_layer (k : context2d) (x y w h : jsval) : layer :=
  match to_number x, to_number y, to_number w, to_number h with
  | Num x, Num y, Num w, Num h =>
      mask (on_outline (lineWidth k) x y w h) (strokeStyle k)
  | _, _, _, _ => no_paint
  end.

Definition fill_layer (k : context2d) : layer :=
  mask (fun px py =>
          existsb (fun '(x, y, r) => disc_covers x y r px py) (path k))
       (fillStyle k).

Definition stroke_layer (k : context2d) : layer :=
  mask (fun px py =>
          existsb (fun '(x, y, r) => ring_covers (lineWidth k) x y r px py)
                  (path k))
       (strokeStyle k).

Definition fillText_layer (k : context2d) (text x y : jsval) : layer :=
  match to_number x, to_number y with
  | Num _, Num _ =>
      mask (text_covers (font k) (textAlign k) (textBaseline k)
                        (to_string text) (to_number x) (to_number y))
           (fillStyle k)
  | _, _ => no_paint
  end.

Definition drawImage_layer (img : image) (x y w h : jsval) : layer :=
  match to_number x, to_number y, to_number w, to_number h with
  | Num _, Num _, Num _, Num _ =>
      image_at img (to_number x) (to_number y) (to_number w) (to_number h)
  | _, _, _, _ => no_paint
  end.

(** [ctx.fillRect], [ctx.strokeRect], [ctx.fill], [ctx.stroke],
    [ctx.fillText], [ctx.drawImage] *)
Definition fillRect (x y w h : jsval) (c : canvas) : canvas :=
  composite (fillRect_layer (context c) x y w h) c.

Definition strokeRect (x y w h : jsval) (c : canvas) : canvas :=
  composite (strokeRect_layer (context c) x y w h) c.

Definition fill (c : canvas) : canvas := composite (fill_layer (context c)) c.

Definition stroke (c : canvas) : canvas :=
  composite (stroke_layer (context c)) c.

Definition fillText (text x y : jsval) (c : canvas) : canvas :=
  composite (fillText_layer (context c) text x y) c.

Definition drawImage (img : image) (x y w h : jsval) (c : canvas) : canvas :=
  composite (drawImage_layer img x y w h) c.

End Primitives.

(** [canvas.toBuffer('image/png')]: a lossless snapshot of the pixels. *)
Record png : Type := Png {
  png_width : Z;
  png_height : Z;
  png_pixels : Z -> Z -> rgba
}.

Definition toBuffer (c : canvas) : png :=
  {| png_width := width c; png_height := height c; png_pixels := pixels c |}.

End Canvas.

(** ** Sessions and the registry *)

Import JS.

(** An entry of the element log: the object literal an add handler pushes. *)
Definition element : Type := JS.object.

Definition obj (fields : list (string * jsval)) : JS.object :=
  list_to_map fields.

(** The value stored under an identifier:
    [{ canvas, width, height, elements }]. *)
Record session : Type := Session {
  canvas : Canvas.canvas;
  width : jsnum;
  height : jsnum;
  elements : list element
}.

(** [const canvases = {}] *)
Abbreviation registry := (gmap string session).

(** [canvases] is a plain object, so reading [canvases[id]] also finds the
    properties every object inherits from [Object.prototype]. *)
Definition object_prototype : list string :=
  [ "constructor"; "__proto__"; "hasOwnProperty"; "isPrototypeOf";
    "propertyIsEnumerable"; "toLocaleString"; "toString"; "valueOf";
    "__defineGetter__"; "__defineSetter__"; "__lookupGetter__";
    "__lookupSetter__" ].

Inductive slot : Type :=
| Own (s : session)      (** a session stored under the identifier *)
| Inherited              (** a member of [Object.prototype]: truthy, and
                             with no [canvas], [width], [height] or
                             [elements] *)
| Absent.                (** [undefined] *)

(** [canvases[id]] *)
Definition lookup_canvas (canvases : registry) (id : string) : slot :=
  match canvases !! id with
  | Some s => Own s
  | None => if bool_decide (id ∈ object_prototype) then Inherited else Absent
  end.

(** The identifiers [uuidv4()] produces: 36 characters, lower-case hex
    digits in groups of 8, 4, 4, 4 and 12 separated by hyphens. *)
Definition is_lower_hex (a : ascii) : bool :=
  let n := Z.of_nat (nat_of_ascii a) in
  ((48 <=? n) && (n <=? 57)) || ((97 <=? n) && (n <=? 102)).

(** [true] stands for a hex digit, [false] for a hyphen. *)
Definition uuid_shape : list bool :=
  replicate 8 true ++ [false] ++ replicate 4 true ++ [false] ++
  replicate 4 true ++ [false] ++ replicate 4 true ++ [false] ++
  replicate 12 true.

Fixpoint matches_shape (shape : list bool) (s : string) : bool :=
  match shape, s with
  | [], EmptyString => true
  | true :: rest, String a r => is_lower_hex a && matches_shape rest r
  | false :: rest, String a r => Ascii.eqb a "-" && matches_shape rest r
  | _, _ => false
  end.

Definition is_uuid (s : string) : bool := matches_shape uuid_shape s.

(** ** Responses *)

(** The PDF the export handler builds: one page of the given size with the
    snapshot placed on it, compression on, and the three info strings. *)
Record placed_image : Type := Placed {
  placed_png : Canvas.png;
  placed_x : Z;
  placed_y : Z;
  placed_width : jsnum;
  placed_height : jsnum
}.

Record pdf_document : Type := PdfDocument {
  page_size : jsnum * jsnum;
  compress : bool;
  info_title : string;
  info_author : string;
  info_creator : string;
  page_images : list placed_image
}.

Inductive payload : Type :=
| Error (error : string)                        (** [{ error }] *)
| Message (message : string)                    (** [{ message }] *)
| Initialized (id message : string) (w h : jsnum)
                                                (** [{ id, message, width, height }] *)
| Info (id : string) (w h : jsnum) (elementCount : nat) (es : list element)
                                                (** [{ id, width, height, elementCount, elements }] *)
| PngImage (buffer : Canvas.png)                (** [image/png] *)
| PdfAttachment (filename : string) (doc : pdf_document).
                                                (** [application/pdf] *)

Record response : Type := Response { status : Z; body : payload }.

(** [res.json(p)] answers 200; [res.status(n).json(p)] answers [n]. *)
Definition ok (p : payload) : response := Response 200 p.
Definition failed (n : Z) (msg : string) : response := Response n (Error msg).

(** The error taxonomy of the specification, as the responses the handlers
    give. *)
Definition SessionNotFound : response := failed 404 "Canvas not found".

Definition ImageLoadFailure : response :=
  failed 500 "Failed to load or add image".

Definition InvalidDimensions (r : response) : Prop :=
  r = failed 400 "Width and height are required" \/
  r = failed 400 "Dimensions must be positive numbers" \/
  r = failed 400 "Dimensions cannot exceed 5000px".


(** ** The request handlers

    Each handler takes the registry and what the request carries and gives
    the response and the registry afterwards; requests are served one at a
    time, the two image handlers included (what [await loadImage] resolves
    to comes with the request).  A handler that reads a property of
    [undefined] throws a [TypeError], which its [catch] turns into a 500;
    this happens when [canvases[id]] is an inherited member. *)

Section Handlers.

Context {R : Canvas.Rasterizer}.

(** [POST /init]; [uuid] is what [uuidv4()] returns. *)
Definition init (canvases : registry) (uuid : string) (body : JS.object)
  : response * registry :=
  let width := get body "width" in
  let height := get body "height" in
  if JS.not width || JS.not height then
    (failed 400 "Width and height are required", canvases)
  else
    let w := parseInt width in
    let h := parseInt height in
    if le w (Num 0) || le h (Num 0) then
      (failed 400 "Dimensions must be positive numbers", canvases)
    else if gt w (Num 5000) || gt h (Num 5000) then
      (failed 400 "Dimensions cannot exceed 5000px", canvases)
    else
      let id := uuid in
      let canvas := Canvas.createCanvas w h in
      let ctx := Canvas.set_fillStyle (JString "#ffffff") canvas in
      let ctx :=
        Canvas.fillRect (JNumber (Num 0)) (JNumber (Num 0))
                        (JNumber w) (JNumber h) ctx in
      (ok (Initialized id "Canvas initialized successfully" w h),
       <[id := Session ctx w h []]> canvases).

(** [POST /:id/add/rectangle] *)
Definition add_rectangle (canvases : registry) (id : string) (body : JS.object)
  : response * registry :=
  let x := get body "x" in
  let y := get body "y" in
  let width := get body "width" in
  let height := get body "height" in
  let color := default_to (JString "#000000") (get body "color") in
  let isFilled := default_to (JBool true) (get body "isFilled") in
  match lookup_canvas canvases id with
  | Absent => (SessionNotFound, canvases)
  | found =>
      if is_undefined x || is_undefined y || JS.not width || JS.not height then
        (failed 400 "x, y, width, and height are required", canvases)
      else
        match found with
        | Own (Session canvas w h elements) =>
            let ctx := Canvas.set_fillStyle color canvas in
            let ctx := Canvas.set_strokeStyle color ctx in
            let ctx := Canvas.set_lineWidth 2 ctx in
            let ctx :=
              if truthy isFilled
              then Canvas.fillRect x y width height ctx
              else Canvas.strokeRect x y width height ctx in
            let pushed :=
              obj [ ("type", JString "rectangle"); ("x", x); ("y", y);
                    ("width", width); ("height", height); ("color", color);
                    ("isFilled", isFilled) ] in
            (ok (Message "Rectangle added successfully"),
             <[id := Session ctx w h (elements ++ [pushed])]> canvases)
        | _ => (failed 500 "Failed to add rectangle", canvases)
        end
  end.

(** [POST /:id/add/circle] *)
Definition add_circle (canvases : registry) (id : string) (body : JS.object)
  : response * registry :=
  let x := get body "x" in
  let y := get body "y" in
  let radius := get body "radius" in
  let color := default_to (JString "#000000") (get body "color") in
  let isFilled := default_to (JBool true) (get body "isFilled") in
  match lookup_canvas canvases id with
  | Absent => (SessionNotFound, canvases)
  | found =>
      if is_undefined x || is_undefined y || JS.not radius then
        (failed 400 "x, y, and radius are required", canvases)
      else
        match found with
        | Own (Session canvas w h elements) =>
            let ctx := Canvas.beginPath canvas in
            let ctx := Canvas.arc x y radius ctx in
            let ctx := Canvas.set_fillStyle color ctx in
            let ctx := Canvas.set_strokeStyle color ctx in
            let ctx := Canvas.set_lineWidth 2 ctx in
            let ctx :=
              if truthy isFilled then Canvas.fill ctx else Canvas.stroke ctx in
            let pushed :=
              obj [ ("type", JString "circle"); ("x", x); ("y", y);
                    ("radius", radius); ("color", color);
                    ("isFilled", isFilled) ] in
            (ok (Message "Circle added successfully"),
             <[id := Session ctx w h (elements ++ [pushed])]> canvases)
        | _ => (failed 500 "Failed to add circle", canvases)
        end
  end.

(** [POST /:id/add/text] *)
Definition add_text (canvases : registry) (id : string) (body : JS.object)
  : response * registry :=
  let text := get body "text" in
  let x := get body "x" in
  let y := get body "y" in
  let fontSize := default_to (JNumber (Num 16)) (get body "fontSize") in
  let fontFamily := default_to (JString "Arial") (get body "fontFamily") in
  let color := default_to (JString "#000000") (get body "color") in
  let align := default_to (JString "left") (get body "align") in
  match lookup_canvas canvases id with
  | Absent => (SessionNotFound, canvases)
  | found =>
      if JS.not text || is_undefined x || is_undefined y then
        (failed 400 "text, x, and y are required", canvases)
      else
        match found with
        | Own (Session canvas w h elements) =>
            let ctx :=
              Canvas.set_font
                (to_string fontSize +:+ "px " +:+ to_string fontFamily)
                canvas in
            let ctx := Canvas.set_fillStyle color ctx in
            let ctx := Canvas.set_textAlign align ctx in
            let ctx := Canvas.set_textBaseline "top" ctx in
            let ctx := Canvas.fillText text x y ctx in
            let pushed :=
              obj [ ("type", JString "text"); ("text", text); ("x", x);
                    ("y", y); ("fontSize", fontSize);
                    ("fontFamily", fontFamily); ("color", color);
                    ("align", align) ] in
            (ok (Message "Text added successfully"),
             <[id := Session ctx w h (elements ++ [pushed])]> canvases)
        | _ => (failed 500 "Failed to add text", canvases)
        end
  end.

(** [POST /:id/add/image]; [loaded] is the outcome of [await loadImage(url)],
    [None] when the promise rejects. *)
Definition add_image (canvases : registry) (id : string) (body : JS.object)
    (loaded : option Canvas.image) : response * registry :=
  let url := get body "url" in
  let x := get body "x" in
  let y := get body "y" in
  let width := get body "width" in
  let height := get body "height" in
  match lookup_canvas canvases id with
  | Absent => (SessionNotFound, canvases)
  | found =>
      if JS.not url || is_undefined x || is_undefined y then
        (failed 400 "url, x, and y are required", canvases)
      else
        match loaded with
        | None => (failed 500 "Failed to load or add image", canvases)
        | Some img =>
            match found with
            | Own (Session canvas w h elements) =>
                let drawWidth :=
                  JS.or width (JNumber (Num (Canvas.img_width img))) in
                let drawHeight :=
                  JS.or height (JNumber (Num (Canvas.img_height img))) in
                let ctx := Canvas.drawImage img x y drawWidth drawHeight canvas in
                let pushed :=
                  obj [ ("type", JString "image"); ("url", url); ("x", x);
                        ("y", y); ("width", drawWidth);
                        ("height", drawHeight) ] in
                (ok (Message "Image added successfully"),
                 <[id := Session ctx w h (elements ++ [pushed])]> canvases)
            | _ => (failed 500 "Failed to load or add image", canvases)
            end
        end
  end.

(** [POST /:id/add/image-upload]; [file] is [req.file], [None] when no file
    came with the request, and inside it the outcome of
    [await loadImage(req.file.buffer)]. *)
Definition add_image_upload (canvases : registry) (id : string)
    (body : JS.object) (file : option (option Canvas.image))
  : response * registry :=
  let x := default_to (JNumber (Num 0)) (get body "x") in
  let y := default_to (JNumber (Num 0)) (get body "y") in
  let width := get body "width" in
  let height := get body "height" in
  match lookup_canvas canvases id with
  | Absent => (SessionNotFound, canvases)
  | found =>
      match file with
      | None => (failed 400 "Image file is required", canvases)
      | Some None => (failed 500 "Failed to upload or add image", canvases)
      | Some (Some img) =>
          match found with
          | Own (Session canvas w h elements) =>
              let drawWidth :=
                if truthy width then JNumber (parseInt width)
                else JNumber (Num (Canvas.img_width img)) in
              let drawHeight :=
                if truthy height then JNumber (parseInt height)
                else JNumber (Num (Canvas.img_height img)) in
              let ctx :=
                Canvas.drawImage img (JNumber (parseInt x))
                                 (JNumber (parseInt y)) drawWidth drawHeight
                                 canvas in
              let pushed :=
                obj [ ("type", JString "image"); ("x", JNumber (parseInt x));
                      ("y", JNumber (parseInt y)); ("width", drawWidth);
                      ("height", drawHeight) ] in
              (ok (Message "Image uploaded and added successfully"),
               <[id := Session ctx w h (elements ++ [pushed])]> canvases)
          | _ => (failed 500 "Failed to upload or add image", canvases)
          end
      end
  end.

End Handlers.

(** [GET /:id/export/pdf] *)
Definition export_pdf (canvases : registry) (id : string)
  : response * registry :=
  match lookup_canvas canvases id with
  | Absent => (SessionNotFound, canvases)
  | Own (Session canvas width height _) =>
      let buffer := Canvas.toBuffer canvas in
      let doc :=
        {| page_size := (width, height);
           compress := true;
           info_title := "Canvas Export";
           info_author := "Canvas Builder API";
           info_creator := "Canvas Builder API";
           page_images := [] |} in
      let doc :=
        {| page_size := page_size doc;
           compress := compress doc;
           info_title := info_title doc;
           info_author := info_author doc;
           info_creator := info_creator doc;
           page_images :=
             page_images doc ++ [Placed buffer 0 0 width height] |} in
      (ok (PdfAttachment ("canvas-" +:+ id +:+ ".pdf") doc), canvases)
  | Inherited => (failed 500 "Failed to export PDF", canvases)
  end.

(** [GET /:id/preview] *)
Definition preview (canvases : registry) (id : string) : response * registry :=
  match lookup_canvas canvases id with
  | Absent => (SessionNotFound, canvases)
  | Own (Session canvas _ _ _) =>
      let buffer := Canvas.toBuffer canvas in
      (ok (PngImage buffer), canvases)
  | Inherited => (failed 500 "Failed to get preview", canvases)
  end.

(** [GET /:id/info] *)
Definition info (canvases : registry) (id : string) : response * registry :=
  match lookup_canvas canvases id with
  | Absent => (SessionNotFound, canvases)
  | Own (Session _ width height elements) =>
      (ok (Info id width height (length elements) elements), canvases)
  | Inherited => (failed 500 "Failed to get canvas info", canvases)
  end.

(** [DELETE /:id]; deleting a property the object does not own does
    nothing. *)
Definition delete_canvas (canvases : registry) (id : string)
  : response * registry :=
  match lookup_canvas canvases id with
  | Absent => (SessionNotFound, canvases)
  | _ => (ok (Message "Canvas deleted successfully"), delete id canvases)
  end.

(** ** Requests and runs *)

Inductive request : Type :=
| Init (uuid : string) (body : JS.object)
| AddRectangle (id : string) (body : JS.object)
| AddCircle (id : string) (body : JS.object)
| AddText (id : string) (body : JS.object)
| AddImage (id : string) (body : JS.object) (loaded : option Canvas.image)
| AddImageUpload (id : string) (body : JS.object)
                 (file : option (option Canvas.image))
| ExportPdf (id : string)
| Preview (id : string)
| GetInfo (id : string)
| Delete (id : string).

Section Runs.

Context {R : Canvas.Rasterizer}.

Definition handle (canvases : registry) (req : request) : response * registry :=
  match req with
  | Init uuid body => init canvases uuid body
  | AddRectangle id body => add_rectangle canvases id body
  | AddCircle id body => add_circle canvases id body
  | AddText id body => add_text canvases id body
  | AddImage id body loaded => add_image canvases id body loaded
  | AddImageUpload id body file => add_image_upload canvases id body file
  | ExportPdf id => export_pdf canvases id
  | Preview id => preview canvases id
  | GetInfo id => info canvases id
  | Delete id => delete_canvas canvases id
  end.

(** The registry after a sequence of requests, served one after another. *)
Definition run (canvases : registry) (reqs : list request) : registry :=
  fold_left (fun st req => snd (handle st req)) reqs canvases.

End Runs.

(** The identifier a request names, if it names one. *)
Definition request_id (req : request) : option string :=
  match req with
  | Init _ _ => None
  | AddRectangle id _ | AddCircle id _ | AddText id _ | AddImage id _ _
  | AddImageUpload id _ _ | ExportPdf id | Preview id | GetInfo id
  | Delete id => Some id
  end.

(** [uuidv4()] returned [id] while serving the request. *)
Definition issues (id : string) (req : request) : bool :=
  match req with
  | Init uuid _ => String.eqb uuid id
  | _ => false
  end.

(** ** Drawings: an add request without its identifier *)

Inductive drawing : Type :=
| Rectangle (body : JS.object)
| Circle (body : JS.object)
| Text (body : JS.object)
| ImageFrom (body : JS.object) (loaded : option Canvas.image)
| ImageUpload (body : JS.object) (file : option (option Canvas.image)).

Definition add (id : string) (d : drawing) : request :=
  match d with
  | Rectangle body => AddRectangle id body
  | Circle body => AddCircle id body
  | Text body => AddText id body
  | ImageFrom body loaded => AddImage id body loaded
  | ImageUpload body file => AddImageUpload id body file
  end.

(** The drawing has its required fields and, for an image, its source
    could be decoded. *)
Definition accepted (d : drawing) : bool :=
  match d with
  | Rectangle body =>
      negb (is_undefined (get body "x") || is_undefined (get body "y")
            || JS.not (get body "width") || JS.not (get body "height"))
  | Circle body =>
      negb (is_undefined (get body "x") || is_undefined (get body "y")
            || JS.not (get body "radius"))
  | Text body =>
      negb (JS.not (get body "text") || is_undefined (get body "x")
            || is_undefined (get body "y"))
  | ImageFrom body loaded =>
      negb (JS.not (get body "url") || is_undefined (get body "x")
            || is_undefined (get body "y"))
      && bool_decide (is_Some loaded)
  | ImageUpload body file =>
      match file with Some (Some _) => true | _ => false end
  end.



Section Painting.

Context {R : Canvas.Rasterizer}.




End Painting.

(** ** The fields of a logged element *)

Definition has_fields (e : element) (fields : list string) : bool :=
  forallb (fun k => negb (is_undefined (get e k))) fields.

(** The fields of each variant as the specification lists them: "position,
    size/radius, color, fill-vs-stroke flag, font attributes, text content,
    or source reference and draw box". *)
Definition variant_fields (type : string) : option (list string) :=
  if String.eqb type "rectangle" then
    Some ["x"; "y"; "width"; "height"; "color"; "isFilled"]
  else if String.eqb type "circle" then
    Some ["x"; "y"; "radius"; "color"; "isFilled"]
  else if String.eqb type "text" then
    Some ["text"; "x"; "y"; "fontSize"; "fontFamily"; "color"; "align"]
  else if String.eqb type "image" then
    Some ["url"; "x"; "y"; "width"; "height"]
  else None.

(** The fields every logged element of a variant has: an image is sure to
    have its draw box only. *)
Definition recorded_fields (type : string) : option (list string) :=
  if String.eqb type "image" then Some ["x"; "y"; "width"; "height"]
  else variant_fields type.

Definition carries (fields_of : string -> option (list string)) (e : element)
  : bool :=
  match get e "type" with
  | JString type =>
      match fields_of type with
      | Some fields => has_fields e fields
      | None => false
      end
  | _ => false
  end.


(** ** The surface of a session *)

(** The surface has the dimensions the session declares. *)
Definition surface_matches (s : session) : Prop :=
  width s = Num (Canvas.width (canvas s)) /\
  height s = Num (Canvas.height (canvas s)).

(** A solid image of one colour. *)
Definition solid (k : Canvas.rgba) (w h : Z) (p : Canvas.png) : Prop :=
  Canvas.png_width p = w /\ Canvas.png_height p = h /\
  forall px py, 0 <= px < w -> 0 <= py < h -> Canvas.png_pixels p px py = k.

(** ** A rasteriser to run the handlers with

    Shapes are cut on the integer lattice: a pixel is in a disc when its
    distance from the centre is at most the radius, images are resampled
    to the nearest pixel, a text run is a bar one pixel high with one pixel
    per character, the only colours are the hex triples, and every font is
    known. *)
Definition lattice : Canvas.Rasterizer :=
  {| Canvas.named_color := fun _ => None;
     Canvas.font_known := fun _ => true;
     Canvas.disc_covers := fun x y r px py =>
       match x, y, r with
       | Num x, Num y, Num r => (px - x) ^ 2 + (py - y) ^ 2 <=? r ^ 2
       | _, _, _ => false
       end;
     Canvas.ring_covers := fun lw x y r px py =>
       match x, y, r with
       | Num x, Num y, Num r =>
           let d2 := (px - x) ^ 2 + (py - y) ^ 2 in
           (Z.max 0 (r - lw / 2) ^ 2 <=? d2) && (d2 <=? (r + lw / 2) ^ 2)
       | _, _, _ => false
       end;
     Canvas.text_covers := fun _ _ _ text x y px py =>
       match x, y with
       | Num x, Num y =>
           (py =? y) && (x <=? px) && (px <? x + Z.of_nat (String.length text))
       | _, _ => false
       end;
     Canvas.image_at := fun img x y w h px py =>
       match x, y, w, h with
       | Num x, Num y, Num w, Num h =>
           if Canvas.in_box x y w h px py && negb (w =? 0) && negb (h =? 0)
           then Some (Canvas.img_pixels img
                        ((px - x) * Canvas.img_width img / w)
                        ((py - y) * Canvas.img_height img / h))
           else None
       | _, _, _, _ => None
       end |}.

(** Sample data. *)
Definition uuid_a : string := "1b9d6bcd-bbfd-4b2d-9b5d-ab8dfbbd4bed".
Definition uuid_b : string := "9c5b94b1-35ad-49bb-b118-8e8fc24abf80".

Definition dims (w h : jsval) : JS.object :=
  obj [("width", w); ("height", h)].

Definition dims_800_600 : JS.object :=
  dims (JNumber (Num 800)) (JNumber (Num 600)).

Definition dims_abc : JS.object := dims (JString "abc") (JString "abc").

Definition box (x y w h : Z) (color : string) : JS.object :=
  obj [ ("x", JNumber (Num x)); ("y", JNumber (Num y));
        ("width", JNumber (Num w)); ("height", JNumber (Num h));
        ("color", JString color) ].

Definition red_dot : Canvas.image :=
  {| Canvas.img_width := 1; Canvas.img_height := 1;
     Canvas.img_pixels := fun _ _ => Canvas.RGBA 255 0 0 255 |}.

(** A session as [init] stores it for 800 by 600, and the registry that
    holds it alone. *)
Definition sample_session : session :=
  Session
    (Canvas.fillRect (JNumber (Num 0)) (JNumber (Num 0))
       (JNumber (Num 800)) (JNumber (Num 600))
       (Canvas.set_fillStyle (R := lattice) (JString "#ffffff")
          (Canvas.createCanvas (Num 800) (Num 600))))
    (Num 800) (Num 600) [].

Definition sample_registry : registry :=
  snd (init (R := lattice) ∅ uuid_a dims_800_600).

Definition picture_at (url : string) (x y : Z) : JS.object :=
  obj [ ("url", JString url); ("x", JNumber (Num x)); ("y", JNumber (Num y)) ].

(** ** What a request can do to the registry

    A request leaves the registry alone, stores a new session with an empty
    log, replaces a session by one with the same dimensions and one more
    element, or removes an entry. *)
Inductive effect (canvases : registry) : request -> registry -> Prop :=
| effect_none (req : request) : effect canvases req canvases
| effect_init (uuid : string) (body : JS.object) (cv : Canvas.canvas) :
    let w := parseInt (get body "width") in
    let h := parseInt (get body "height") in
    le w (Num 0) = false -> gt w (Num 5000) = false ->
    le h (Num 0) = false -> gt h (Num 5000) = false ->
    Canvas.width cv = Canvas.to_uint32 w ->
    Canvas.height cv = Canvas.to_uint32 h ->
    effect canvases (Init uuid body) (<[uuid := Session cv w h []]> canvases)
| effect_add (req : request) (id : string) (s : session)
    (cv : Canvas.canvas) (e : element) :
    request_id req = Some id ->
    canvases !! id = Some s ->
    Canvas.width cv = Canvas.width (canvas s) ->
    Canvas.height cv = Canvas.height (canvas s) ->
    carries recorded_fields e = true ->
    effect canvases req
      (<[id := Session cv (width s) (height s) (elements s ++ [e])]> canvases)
| effect_delete (id : string) :
    effect canvases (Delete id) (delete id canvases).

(** ** More vocabulary for the handlers *)

(** The identifier a request is about: the one [uuidv4()] returned for an
    [init], the one in the path for the others. *)
Definition target (req : request) : string :=
  match req with
  | Init uuid _ => uuid
  | AddRectangle id _ | AddCircle id _ | AddText id _ | AddImage id _ _
  | AddImageUpload id _ _ | ExportPdf id | Preview id | GetInfo id
  | Delete id => id
  end.

(** The dimensions an [init] is given read as numbers. *)
Definition numeric_init (req : request) : bool :=
  match req with
  | Init _ body =>
      match parseInt (get body "width"), parseInt (get body "height") with
      | Num _, Num _ => true
      | _, _ => false
      end
  | _ => true
  end.

(** The session declares dimensions between 1 and 5000 and its surface has
    them. *)
Definition well_sized (s : session) : Prop :=
  exists w h,
    width s = Num w /\ height s = Num h /\
    0 < w <= 5000 /\ 0 < h <= 5000 /\
    Canvas.width (canvas s) = w /\ Canvas.height (canvas s) = h.


Section Layers.

Context {R : Canvas.Rasterizer}.


End Layers.

(** ** The client

    [frontend/src/App.jsx]: the state the component keeps (the identifier
    of its canvas, the dimensions, the element list it shows and the four
    forms), what its inputs store and what its buttons send.  The toasts,
    the loading flag and the preview URL, which reach no request, are left
    out; so is the image the page loads from [preview], a read. *)

Module App.

(** [parseInt(e.target.value) || fallback]: what a number box stores. *)
Definition number_input (value : string) (fallback : Z) : jsval :=
  JS.or (JNumber (parseInt (JString value))) (JNumber (Num fallback)).

Record state : Type := State {
  canvasId : option string;      (** [null] or the identifier *)
  dimensions : JS.object;
  elements : list element;
  rectForm : JS.object;
  circleForm : JS.object;
  textForm : JS.object;
  imageForm : JS.object
}.

(** The [useState] defaults. *)
Definition initial : state :=
  {| canvasId := None;
     dimensions :=
       obj [("width", JNumber (Num 800)); ("height", JNumber (Num 600))];
     elements := [];
     rectForm :=
       obj [ ("x", JNumber (Num 50)); ("y", JNumber (Num 50));
             ("width", JNumber (Num 100)); ("height", JNumber (Num 80));
             ("color", JString "#6366f1"); ("isFilled", JBool true) ];
     circleForm :=
       obj [ ("x", JNumber (Num 200)); ("y", JNumber (Num 200));
             ("radius", JNumber (Num 50)); ("color", JString "#10b981");
             ("isFilled", JBool true) ];
     textForm :=
       obj [ ("text", JString "Hello Canvas!"); ("x", JNumber (Num 100));
             ("y", JNumber (Num 100)); ("fontSize", JNumber (Num 24));
             ("fontFamily", JString "Arial"); ("color", JString "#e11d48");
             ("align", JString "left") ];
     imageForm :=
       obj [ ("url", JString "https://via.placeholder.com/150");
             ("x", JNumber (Num 300)); ("y", JNumber (Num 100));
             ("width", JNumber (Num 150)); ("height", JNumber (Num 150)) ] |}.

Definition setCanvasId (v : option string) (ui : state) : state :=
  State v (dimensions ui) (elements ui) (rectForm ui) (circleForm ui)
        (textForm ui) (imageForm ui).

Definition setDimensions (v : JS.object) (ui : state) : state :=
  State (canvasId ui) v (elements ui) (rectForm ui) (circleForm ui)
        (textForm ui) (imageForm ui).

Definition setElements (v : list element) (ui : state) : state :=
  State (canvasId ui) (dimensions ui) v (rectForm ui) (circleForm ui)
        (textForm ui) (imageForm ui).

Definition setRectForm (v : JS.object) (ui : state) : state :=
  State (canvasId ui) (dimensions ui) (elements ui) v (circleForm ui)
        (textForm ui) (imageForm ui).

Definition setCircleForm (v : JS.object) (ui : state) : state :=
  State (canvasId ui) (dimensions ui) (elements ui) (rectForm ui) v
        (textForm ui) (imageForm ui).

Definition setTextForm (v : JS.object) (ui : state) : state :=
  State (canvasId ui) (dimensions ui) (elements ui) (rectForm ui)
        (circleForm ui) v (imageForm ui).

Definition setImageForm (v : JS.object) (ui : state) : state :=
  State (canvasId ui) (dimensions ui) (elements ui) (rectForm ui)
        (circleForm ui) (textForm ui) v.

(** The inputs of the page. *)
Inductive input : Type :=
| CanvasWidth | CanvasHeight
| RectX | RectY | RectWidth | RectHeight | RectColor | RectFilled
| CircleX | CircleY | CircleRadius | CircleColor | CircleFilled
| TextContent | TextX | TextY | TextFontSize | TextFontFamily | TextColor
| ImageUrl | ImageX | ImageY | ImageWidth | ImageHeight.

(** [onChange]: [value] is [e.target.value] and [checked] is
    [e.target.checked]; [{ ...form, k: v }] is the form with [k] set. *)
Definition change (i : input) (value : string) (checked : bool) (ui : state)
  : state :=
  match i with
  | CanvasWidth =>
      setDimensions (<["width" := number_input value 0]> (dimensions ui)) ui
  | CanvasHeight =>
      setDimensions (<["height" := number_input value 0]> (dimensions ui)) ui
  | RectX => setRectForm (<["x" := number_input value 0]> (rectForm ui)) ui
  | RectY => setRectForm (<["y" := number_input value 0]> (rectForm ui)) ui
  | RectWidth =>
      setRectForm (<["width" := number_input value 0]> (rectForm ui)) ui
  | RectHeight =>
      setRectForm (<["height" := number_input value 0]> (rectForm ui)) ui
  | RectColor => setRectForm (<["color" := JString value]> (rectForm ui)) ui
  | RectFilled => setRectForm (<["isFilled" := JBool checked]> (rectForm ui)) ui
  | CircleX => setCircleForm (<["x" := number_input value 0]> (circleForm ui)) ui
  | CircleY => setCircleForm (<["y" := number_input value 0]> (circleForm ui)) ui
  | CircleRadius =>
      setCircleForm (<["radius" := number_input value 0]> (circleForm ui)) ui
  | CircleColor =>
      setCircleForm (<["color" := JString value]> (circleForm ui)) ui
  | CircleFilled =>
      setCircleForm (<["isFilled" := JBool checked]> (circleForm ui)) ui
  | TextContent => setTextForm (<["text" := JString value]> (textForm ui)) ui
  | TextX => setTextForm (<["x" := number_input value 0]> (textForm ui)) ui
  | TextY => setTextForm (<["y" := number_input value 0]> (textForm ui)) ui
  | TextFontSize =>
      setTextForm (<["fontSize" := number_input value 12]> (textForm ui)) ui
  | TextFontFamily =>
      setTextForm (<["fontFamily" := JString value]> (textForm ui)) ui
  | TextColor => setTextForm (<["color" := JString value]> (textForm ui)) ui
  | ImageUrl => setImageForm (<["url" := JString value]> (imageForm ui)) ui
  | ImageX => setImageForm (<["x" := number_input value 0]> (imageForm ui)) ui
  | ImageY => setImageForm (<["y" := number_input value 0]> (imageForm ui)) ui
  | ImageWidth =>
      setImageForm (<["width" := number_input value 0]> (imageForm ui)) ui
  | ImageHeight =>
      setImageForm (<["height" := number_input value 0]> (imageForm ui)) ui
  end.

(** The buttons.  What the server draws from [uuidv4()] and what
    [loadImage] resolves to while it serves the click come with it. *)
Inductive button : Type :=
| InitializeCanvas (uuid : string)
| AddRectangleButton
| AddCircleButton
| AddTextButton
| AddImageButton (loaded : option Canvas.image)
| DownloadPdf
| ResetCanvas.

Inductive event : Type :=
| Change (i : input) (value : string) (checked : bool)
| Click (b : button).

(** [axios] and [fetch]'s [response.ok] take the statuses from 200 to 299
    as success; on any other, [axios] throws. *)
Definition resolved (r : response) : bool :=
  (200 <=? status r) && (status r <? 300).

(** [!canvasId] *)
Definition no_canvas (ui : state) : bool :=
  match canvasId ui with
  | None => true
  | Some id => String.eqb id ""
  end.

(** What a click leaves: the state of the component, the registry of the
    server, and the responses the client received, in order. *)
Definition outcome : Type := state * registry * list response.

Section Clicks.

Context {R : Canvas.Rasterizer}.

(** [refreshPreview]: reads [info] and shows its elements; on an error the
    list stays. *)
Definition refreshPreview (ui : state) (canvases : registry)
  : state * list response :=
  match canvasId ui with
  | Some id =>
      if no_canvas ui then (ui, [])
      else
        let res := fst (info canvases id) in
        if resolved res then
          match body res with
          | Info _ _ _ _ es => (setElements es ui, [res])
          | _ => (setElements [] ui, [res])
          end
        else (ui, [res])
  | None => (ui, [])
  end.

(** The four add buttons: nothing is sent without a canvas; after a
    success the element list is refreshed. *)
Definition add_click (ui : state) (canvases : registry)
    (post : registry -> string -> response * registry) : outcome :=
  match canvasId ui with
  | Some id =>
      if no_canvas ui then (ui, canvases, [])
      else
        let '(res, st) := post canvases id in
        if resolved res then
          let '(ui', rs) := refreshPreview ui st in (ui', st, res :: rs)
        else (ui, st, [res])
  | None => (ui, canvases, [])
  end.

Definition click (ui : state) (canvases : registry) (b : button) : outcome :=
  match b with
  | InitializeCanvas uuid =>
      (* initCanvas *)
      let '(res, st) := init canvases uuid (dimensions ui) in
      if resolved res then
        match body res with
        | Initialized id _ _ _ =>
            (setElements [] (setCanvasId (Some id) ui), st, [res])
        | _ => (setElements [] (setCanvasId None ui), st, [res])
        end
      else (ui, st, [res])
  | AddRectangleButton =>
      add_click ui canvases
        (fun st id => add_rectangle st id (rectForm ui))
  | AddCircleButton =>
      add_click ui canvases (fun st id => add_circle st id (circleForm ui))
  | AddTextButton =>
      add_click ui canvases (fun st id => add_text st id (textForm ui))
  | AddImageButton loaded =>
      add_click ui canvases
        (fun st id => add_image st id (imageForm ui) loaded)
  | DownloadPdf =>
      (* exportPdf *)
      match canvasId ui with
      | Some id =>
          if no_canvas ui then (ui, canvases, [])
          else
            let '(res, st) := export_pdf canvases id in (ui, st, [res])
      | None => (ui, canvases, [])
      end
  | ResetCanvas =>
      (* resetCanvas: the state is cleared whether or not the delete
         succeeded *)
      let cleared := setElements [] (setCanvasId None ui) in
      match canvasId ui with
      | Some id =>
          if no_canvas ui then (cleared, canvases, [])
          else
            let '(res, st) := delete_canvas canvases id in (cleared, st, [res])
      | None => (cleared, canvases, [])
      end
  end.

Definition step (ui : state) (canvases : registry) (ev : event) : outcome :=
  match ev with
  | Change i value checked => (change i value checked ui, canvases, [])
  | Click b => click ui canvases b
  end.

(** One client and the server, from a state of both, through a sequence of
    events. *)
Fixpoint play (ui : state) (canvases : registry) (evs : list event) : outcome :=
  match evs with
  | [] => (ui, canvases, [])
  | ev :: rest =>
      let '(ui1, st1, rs1) := step ui canvases ev in
      let '(ui2, st2, rs2) := play ui1 st1 rest in
      (ui2, st2, (rs1 ++ rs2)%list)
  end.

End Clicks.

(** The number boxes of the forms. *)
Definition number_boxes (ui : state) : list jsval :=
  [ get (dimensions ui) "width"; get (dimensions ui) "height";
    get (rectForm ui) "x"; get (rectForm ui) "y";
    get (rectForm ui) "width"; get (rectForm ui) "height";
    get (circleForm ui) "x"; get (circleForm ui) "y";
    get (circleForm ui) "radius";
    get (textForm ui) "x"; get (textForm ui) "y"; get (textForm ui) "fontSize";
    get (imageForm ui) "x"; get (imageForm ui) "y";
    get (imageForm ui) "width"; get (imageForm ui) "height" ].

Definition is_integer (v : jsval) : bool :=
  match v with JNumber (Num _) => true | _ => false end.

(** An event that makes the server store a session under [id]. *)
Definition stores_under (id : string) (ev : event) : bool :=
  match ev with
  | Click (InitializeCanvas uuid) => String.eqb uuid id
  | _ => false
  end.

End App.

(** The component's canvas is stored on the server and the element list
    shown is its log; without a canvas the list is empty. *)
Definition in_step_with (ui : App.state) (canvases : registry) : Prop :=
  match App.canvasId ui with
  | Some id =>
      exists s, canvases !! id = Some s /\ App.elements ui = elements s
  | None => App.elements ui = []
  end.

(** What holds of the client and the server between events. *)
Definition steady (ui : App.state) (canvases : registry) : Prop :=
  forallb App.is_integer (App.number_boxes ui) = true /\
  (forall id s, canvases !! id = Some s -> well_sized s) /\
  in_step_with ui canvases.

Definition none_404 (rs : list response) : Prop :=
  Forall (fun r => status r <> 404) rs.

(** ** Sample runs

    Two sessions side by side, a short history of one session, and a
    client that clicked Initialize twice. *)
Definition two_sessions : registry :=
  run (R := lattice) ∅ [Init uuid_a dims_800_600; Init uuid_b dims_800_600].

Definition short_history : list request :=
  [ add uuid_a (Rectangle (box 0 0 4 4 "#ff0000"));
    AddRectangle uuid_a ∅;
    Delete uuid_b;
    add uuid_a (ImageFrom (picture_at "https://example.com/image.jpg" 300 100)
                          (Some red_dot)) ].


Definition typing_and_clicking : list App.event :=
  [ App.Change App.CanvasWidth "abc" false;
    App.Click (App.InitializeCanvas uuid_a);
    App.Change App.CanvasWidth "640" false;
    App.Click (App.InitializeCanvas uuid_b);
    App.Click App.AddRectangleButton ].

Definition reinitialized : App.outcome :=
  App.play (R := lattice) App.initial ∅
    [ App.Click (App.InitializeCanvas uuid_a);
      App.Click (App.InitializeCanvas uuid_b) ].

(** * Properties *)

(** ** Looking identifiers up *)

Lemma lookup_canvas_own (canvases : registry) (id : string) (s : session) :
  canvases !! id = Some s -> lookup_canvas canvases id = Own s.
Proof. intros H. unfold lookup_canvas. by rewrite H. Qed.

Lemma lookup_canvas_absent (canvases : registry) (id : string) :
  canvases !! id = None -> id ∉ object_prototype ->
  lookup_canvas canvases id = Absent.
Proof.
  intros H Hid. unfold lookup_canvas. rewrite H.
  by rewrite bool_decide_eq_false_2.
Qed.

Lemma lookup_canvas_inherited (canvases : registry) (id : string) :
  canvases !! id = None -> id ∈ object_prototype ->
  lookup_canvas canvases id = Inherited.
Proof.
  intros H Hid. unfold lookup_canvas. rewrite H.
  by rewrite bool_decide_eq_true_2.
Qed.

(** No identifier [uuidv4()] produces is a member of [Object.prototype]. *)
Lemma uuid_not_inherited (id : string) :
  is_uuid id = true -> id ∉ object_prototype.
Proof.
  intros H Hin. unfold object_prototype in Hin.
  repeat (apply elem_of_cons in Hin as [-> | Hin];
          [vm_compute in H; discriminate |]).
  by apply elem_of_nil in Hin.
Qed.

(** ** Numerals *)

Lemma parseInt_positive_truthy (v : jsval) (n : Z) :
  parseInt v = Num n -> 0 < n -> truthy v = true.
Proof.
  intros Hv Hn. destruct v as [| | b | [z |] | s]; simpl in *; try discriminate.
  - injection Hv as ->. apply negb_true_iff, Z.eqb_neq. lia.
  - destruct s; [vm_compute in Hv; discriminate | reflexivity].
Qed.

Example parseInt_px : JS.parseInt (JS.JString " 800px") = JS.Num 800.
Proof. reflexivity. Qed.

Example parseInt_abc : JS.parseInt (JS.JString "abc") = JS.NaN.
Proof. reflexivity. Qed.

Example parseInt_hex : JS.parseInt (JS.JString "-0x1F") = JS.Num (-31).
Proof. reflexivity. Qed.

Example to_number_50 : JS.to_number (JS.JString " 50 ") = JS.Num 50.
Proof. reflexivity. Qed.

Example to_number_px : JS.to_number (JS.JString "50px") = JS.NaN.
Proof. reflexivity. Qed.

Example to_string_neg : JS.to_string (JS.JNumber (JS.Num (-16))) = "-16".
Proof. reflexivity. Qed.

Lemma in_span_spec (a len p : Z) :
  Canvas.in_span a len p = true <->
  Z.min a (a + len) <= p < Z.max a (a + len).
Proof. unfold Canvas.in_span. rewrite andb_true_iff, Z.leb_le, Z.ltb_lt. tauto. Qed.

Lemma in_box_origin (w h px py : Z) :
  0 <= px < w -> 0 <= py < h -> Canvas.in_box 0 0 w h px py = true.
Proof.
  intros Hx Hy. unfold Canvas.in_box.
  apply andb_true_iff; split; apply in_span_spec; lia.
Qed.

Lemma to_uint32_small (n : Z) : 0 <= n <= 5000 -> Canvas.to_uint32 (Num n) = n.
Proof. intros H. simpl. apply Z.mod_small. lia. Qed.

(** ** Reading a session: export, preview, info *)

Lemma export_pdf_registry (canvases : registry) (id : string) :
  snd (export_pdf canvases id) = canvases.
Proof.
  unfold export_pdf. destruct (lookup_canvas canvases id) as [[]| |]; done.
Qed.

Lemma preview_registry (canvases : registry) (id : string) :
  snd (preview canvases id) = canvases.
Proof.
  unfold preview. destruct (lookup_canvas canvases id) as [[]| |]; done.
Qed.

Lemma info_registry (canvases : registry) (id : string) :
  snd (info canvases id) = canvases.
Proof.
  unfold info. destruct (lookup_canvas canvases id) as [[]| |]; done.
Qed.

Lemma info_own (canvases : registry) (id : string) (s : session) :
  canvases !! id = Some s ->
  info canvases id =
    (ok (Info id (width s) (height s) (length (elements s)) (elements s)),
     canvases).
Proof.
  intros H. unfold info. rewrite (lookup_canvas_own _ _ _ H). by destruct s.
Qed.


Section Adding.

Context {R : Canvas.Rasterizer}.

(** C2: on an existing session, an image add whose source cannot be loaded
    answers with the load failure and leaves the registry as it was; [info]
    reports the log it reported before. *)
Theorem failed_image_load_changes_nothing (canvases : registry) (id : string)
    (s : session) (body : JS.object) :
  canvases !! id = Some s ->
  truthy (get body "url") = true ->
  is_undefined (get body "x") = false ->
  is_undefined (get body "y") = false ->
  add_image canvases id body None = (ImageLoadFailure, canvases) /\
  fst (info (snd (add_image canvases id body None)) id) =
    ok (Info id (width s) (height s) (length (elements s)) (elements s)).
Proof.
  intros H Hurl Hx Hy.
  assert (add_image canvases id body None = (ImageLoadFailure, canvases)) as E.
  { unfold add_image. rewrite (lookup_canvas_own _ _ _ H).
    unfold JS.not. by rewrite Hurl, Hx, Hy. }
  rewrite E. split; [done |]. simpl. by rewrite (info_own _ _ _ H).
Qed.

(** The same holds for an upload whose bytes cannot be decoded. *)
Lemma failed_upload_changes_nothing (canvases : registry) (id : string)
    (body : JS.object) :
  snd (add_image_upload canvases id body (Some None)) = canvases.
Proof.
  unfold add_image_upload. by destruct (lookup_canvas canvases id).
Qed.

(** C10: on an existing session, a rectangle whose width or height is 0, a
    circle whose radius is 0 and a text whose content is the empty string
    are answered as if the field were missing, with the 400 that lists the
    required fields, and the registry stays as it was. *)
Theorem zero_or_empty_field_counts_as_missing (canvases : registry)
    (id : string) (s : session) (body : JS.object) :
  canvases !! id = Some s ->
  (get body "width" = JNumber (Num 0) \/ get body "height" = JNumber (Num 0) ->
   add_rectangle canvases id body =
     (failed 400 "x, y, width, and height are required", canvases)) /\
  (get body "radius" = JNumber (Num 0) ->
   add_circle canvases id body =
     (failed 400 "x, y, and radius are required", canvases)) /\
  (get body "text" = JString "" ->
   add_text canvases id body =
     (failed 400 "text, x, and y are required", canvases)).
Proof.
  intros H. repeat split.
  - intros Hz. unfold add_rectangle. rewrite (lookup_canvas_own _ _ _ H).
    destruct Hz as [Hz | Hz]; rewrite Hz; simpl; by rewrite ?orb_true_r.
  - intros Hz. unfold add_circle. rewrite (lookup_canvas_own _ _ _ H).
    rewrite Hz. simpl. by rewrite ?orb_true_r.
  - intros Hz. unfold add_text. rewrite (lookup_canvas_own _ _ _ H).
    by rewrite Hz.
Qed.

(** ** Creating a session *)

(** A request that [init] turns down leaves the registry as it was. *)
Lemma init_failure_registry (canvases : registry) (uuid : string)
    (body : JS.object) :
  status (fst (init canvases uuid body)) <> 200 ->
  snd (init canvases uuid body) = canvases.
Proof.
  unfold init. repeat case_match; simpl; congruence.
Qed.


Lemma init_rejects_missing (canvases : registry) (uuid : string)
    (body : JS.object) :
  get body "width" = JUndefined \/ get body "height" = JUndefined ->
  init canvases uuid body =
    (failed 400 "Width and height are required", canvases).
Proof.
  intros H. unfold init, JS.not.
  destruct H as [-> | ->]; simpl; by rewrite ?orb_true_r.
Qed.

(** C5: dimensions that are not numerals pass the checks.  [parseInt] makes
    them [NaN], no comparison with [NaN] holds, and the session is
    created: the request is answered 200 and the registry has a new
    entry whose width and height are [NaN]. *)
Theorem init_accepts_non_numeric_dimensions (canvases : registry)
    (uuid : string) :
  exists cv,
    init canvases uuid dims_abc =
      (ok (Initialized uuid "Canvas initialized successfully" NaN NaN),
       <[uuid := Session cv NaN NaN []]> canvases) /\
    ~ InvalidDimensions (fst (init canvases uuid dims_abc)) /\
    snd (init canvases uuid dims_abc) !! uuid = Some (Session cv NaN NaN []).
Proof.
  eexists. split; [reflexivity |]. split.
  - unfold InvalidDimensions. intros [H | [H | H]]; discriminate H.
  - simpl. apply lookup_insert_eq.
Qed.

(** C8: a request whose dimensions read as numbers between 1 and 5000 is
    answered with the identifier [uuidv4()] returned and those dimensions;
    the session stored under the identifier has a solid white surface of
    exactly those dimensions and an empty log, so [info] counts no
    element. *)
Theorem init_creates_white_session (canvases : registry) (uuid : string)
    (body : JS.object) (w h : Z) :
  parseInt (get body "width") = Num w ->
  parseInt (get body "height") = Num h ->
  0 < w <= 5000 -> 0 < h <= 5000 ->
  exists cv,
    init canvases uuid body =
      (ok (Initialized uuid "Canvas initialized successfully" (Num w) (Num h)),
       <[uuid := Session cv (Num w) (Num h) []]> canvases) /\
    solid Canvas.white w h (Canvas.toBuffer cv) /\
    fst (preview (snd (init canvases uuid body)) uuid) =
      ok (PngImage (Canvas.toBuffer cv)) /\
    fst (info (snd (init canvases uuid body)) uuid) =
      ok (Info uuid (Num w) (Num h) 0 []).
Proof.
  intros Hw Hh Hwr Hhr.
  assert (truthy (get body "width") = true) as Tw
    by (eapply parseInt_positive_truthy; [done | lia]).
  assert (truthy (get body "height") = true) as Th
    by (eapply parseInt_positive_truthy; [done | lia]).
  set (cv := Canvas.fillRect (JNumber (Num 0)) (JNumber (Num 0))
               (JNumber (Num w)) (JNumber (Num h))
               (Canvas.set_fillStyle (JString "#ffffff")
                  (Canvas.createCanvas (Num w) (Num h)))).
  exists cv.
  assert (init canvases uuid body =
    (ok (Initialized uuid "Canvas initialized successfully" (Num w) (Num h)),
     <[uuid := Session cv (Num w) (Num h) []]> canvases)) as E.
  { unfold init, JS.not. rewrite Tw, Th, Hw, Hh. simpl.
    destruct (Z.leb_spec w 0); [lia |]. destruct (Z.leb_spec h 0); [lia |].
    destruct (Z.ltb_spec 5000 w); [lia |]. destruct (Z.ltb_spec 5000 h); [lia |].
    simpl. reflexivity. }
  rewrite E. split; [reflexivity |]. split; [| split].
  - unfold solid, cv. simpl.
    rewrite !Z.mod_small by lia. split; [done |]. split; [done |].
    intros px py Hpx Hpy. unfold Canvas.inside. simpl.
    rewrite !Z.mod_small by lia.
    replace (0 <=? px) with true by (symmetry; apply Z.leb_le; lia).
    replace (px <? w) with true by (symmetry; apply Z.ltb_lt; lia).
    replace (0 <=? py) with true by (symmetry; apply Z.leb_le; lia).
    replace (py <? h) with true by (symmetry; apply Z.ltb_lt; lia).
    simpl. unfold Canvas.fillRect_layer. simpl. unfold Canvas.mask.
    rewrite in_box_origin by lia. reflexivity.
  - simpl. unfold preview, lookup_canvas. by rewrite lookup_insert_eq.
  - simpl. unfold info, lookup_canvas. by rewrite lookup_insert_eq.
Qed.

End Adding.

(** ** Unknown identifiers *)

(** C6: for the identifier [constructor], which no session is stored
    under, [canvases[id]] is the member every object inherits, and no
    handler answers that the session was not found: deleting is reported
    as done, and reading or drawing ends in a 500. *)
Theorem inherited_id_is_not_reported_missing :
  (∅ : registry) !! "constructor" = None /\
  delete_canvas ∅ "constructor" =
    (ok (Message "Canvas deleted successfully"), ∅) /\
  info ∅ "constructor" = (failed 500 "Failed to get canvas info", ∅) /\
  preview ∅ "constructor" = (failed 500 "Failed to get preview", ∅) /\
  export_pdf ∅ "constructor" = (failed 500 "Failed to export PDF", ∅) /\
  add_rectangle (R := lattice) ∅ "constructor" (box 0 0 4 4 "#ff0000") =
    (failed 500 "Failed to add rectangle", ∅).
Proof.
  repeat split; vm_compute; reflexivity.
Qed.

(** ** Every handler acts on the registry in one of four ways *)

Lemma lookup_canvas_own_inv (canvases : registry) (id : string) (s : session) :
  lookup_canvas canvases id = Own s -> canvases !! id = Some s.
Proof.
  unfold lookup_canvas. destruct (canvases !! id); [congruence |].
  by case_bool_decide.
Qed.

Lemma truthy_defined (v : jsval) : truthy v = true -> is_undefined v = false.
Proof. by destruct v. Qed.

Lemma not_false_defined (v : jsval) : JS.not v = false -> is_undefined v = false.
Proof. unfold JS.not. intros H. apply truthy_defined. by destruct (truthy v). Qed.

Lemma default_to_defined (d v : jsval) :
  is_undefined d = false -> is_undefined (default_to d v) = false.
Proof. intros H. unfold default_to. by destruct (is_undefined v) eqn:E. Qed.

Lemma or_defined (a b : jsval) :
  is_undefined b = false -> is_undefined (JS.or a b) = false.
Proof.
  intros H. unfold JS.or. destruct (truthy a) eqn:E; [| done].
  by apply truthy_defined.
Qed.

(** Computes which fields the object has, then uses the hypotheses that
    say its values are defined. *)
Ltac fields_defined :=
  intros;
  match goal with
  | |- carries ?t ?e = true =>
      let v := eval vm_compute in (carries t e) in change (v = true)
  end;
  repeat match goal with
         | H : is_undefined _ = false |- _ => cbv in H; rewrite H; clear H
         end;
  reflexivity.

Lemma rectangle_carries (x y w h c f : jsval) :
  is_undefined x = false -> is_undefined y = false ->
  is_undefined w = false -> is_undefined h = false ->
  is_undefined c = false -> is_undefined f = false ->
  carries variant_fields
    (obj [ ("type", JString "rectangle"); ("x", x); ("y", y); ("width", w);
           ("height", h); ("color", c); ("isFilled", f) ]) = true.
Proof. fields_defined. Qed.

Lemma circle_carries (x y r c f : jsval) :
  is_undefined x = false -> is_undefined y = false ->
  is_undefined r = false ->
  is_undefined c = false -> is_undefined f = false ->
  carries variant_fields
    (obj [ ("type", JString "circle"); ("x", x); ("y", y); ("radius", r);
           ("color", c); ("isFilled", f) ]) = true.
Proof. fields_defined. Qed.

Lemma text_carries (t x y s f c a : jsval) :
  is_undefined t = false -> is_undefined x = false ->
  is_undefined y = false -> is_undefined s = false ->
  is_undefined f = false -> is_undefined c = false ->
  is_undefined a = false ->
  carries variant_fields
    (obj [ ("type", JString "text"); ("text", t); ("x", x); ("y", y);
           ("fontSize", s); ("fontFamily", f); ("color", c);
           ("align", a) ]) = true.
Proof. fields_defined. Qed.

Lemma image_carries (u x y w h : jsval) :
  is_undefined u = false -> is_undefined x = false ->
  is_undefined y = false -> is_undefined w = false ->
  is_undefined h = false ->
  carries variant_fields
    (obj [ ("type", JString "image"); ("url", u); ("x", x); ("y", y);
           ("width", w); ("height", h) ]) = true.
Proof. fields_defined. Qed.

Lemma upload_carries (x y w h : jsval) :
  is_undefined x = false -> is_undefined y = false ->
  is_undefined w = false -> is_undefined h = false ->
  carries recorded_fields
    (obj [ ("type", JString "image"); ("x", x); ("y", y); ("width", w);
           ("height", h) ]) = true.
Proof. fields_defined. Qed.

(** An element that carries what the specification lists carries what
    every element of its variant is sure to have. *)
Lemma carries_variant_recorded (e : element) :
  carries variant_fields e = true -> carries recorded_fields e = true.
Proof.
  unfold carries, recorded_fields.
  destruct (get e "type") as [| | | |type]; try done.
  destruct (String.eqb type "image") eqn:E; [| done].
  apply String.eqb_eq in E as ->. simpl.
  intros H. apply andb_true_iff in H as [_ H]. exact H.
Qed.

(** Closes a goal that says a resolved value is defined. *)
Ltac value_defined :=
  try match goal with
      | |- context [if ?b then _ else _] => destruct b eqn:?
      end;
  first [ done | by apply not_false_defined | by apply truthy_defined ].

Section Steps.

Context {R : Canvas.Rasterizer}.

Lemma init_effect (canvases : registry) (uuid : string) (body : JS.object) :
  effect canvases (Init uuid body) (snd (init canvases uuid body)).
Proof.
  unfold init.
  destruct (JS.not _ || JS.not _); [apply effect_none |].
  destruct (le _ _ || le _ _) eqn:Hle; [apply effect_none |].
  destruct (gt _ _ || gt _ _) eqn:Hgt; [apply effect_none |].
  apply orb_false_elim in Hle as [? ?]. apply orb_false_elim in Hgt as [? ?].
  simpl. by apply effect_init.
Qed.

Lemma add_rectangle_effect (canvases : registry) (id : string)
    (body : JS.object) :
  effect canvases (AddRectangle id body) (snd (add_rectangle canvases id body)).
Proof.
  unfold add_rectangle.
  destruct (lookup_canvas canvases id) as [[cv w h es]| |] eqn:L;
    [| destruct (_ || _); apply effect_none | apply effect_none].
  destruct (_ || _) eqn:V; [apply effect_none |].
  repeat (apply orb_false_elim in V as [V ?]).
  apply lookup_canvas_own_inv in L. simpl.
  apply (effect_add canvases _ id (Session cv w h es)); try done.
  - by destruct (truthy _).
  - by destruct (truthy _).
  - apply carries_variant_recorded, rectangle_carries;
      value_defined.
Qed.

Lemma add_circle_effect (canvases : registry) (id : string)
    (body : JS.object) :
  effect canvases (AddCircle id body) (snd (add_circle canvases id body)).
Proof.
  unfold add_circle.
  destruct (lookup_canvas canvases id) as [[cv w h es]| |] eqn:L;
    [| destruct (_ || _); apply effect_none | apply effect_none].
  destruct (_ || _) eqn:V; [apply effect_none |].
  repeat (apply orb_false_elim in V as [V ?]).
  apply lookup_canvas_own_inv in L. simpl.
  apply (effect_add canvases _ id (Session cv w h es)); try done.
  - by destruct (truthy _).
  - by destruct (truthy _).
  - apply carries_variant_recorded, circle_carries;
      value_defined.
Qed.

Lemma add_text_effect (canvases : registry) (id : string) (body : JS.object) :
  effect canvases (AddText id body) (snd (add_text canvases id body)).
Proof.
  unfold add_text.
  destruct (lookup_canvas canvases id) as [[cv w h es]| |] eqn:L;
    [| destruct (_ || _); apply effect_none | apply effect_none].
  destruct (_ || _) eqn:V; [apply effect_none |].
  repeat (apply orb_false_elim in V as [V ?]).
  apply lookup_canvas_own_inv in L. simpl.
  apply (effect_add canvases _ id (Session cv w h es)); try done.
  apply carries_variant_recorded, text_carries;
    value_defined.
Qed.

Lemma add_image_effect (canvases : registry) (id : string) (body : JS.object)
    (loaded : option Canvas.image) :
  effect canvases (AddImage id body loaded)
         (snd (add_image canvases id body loaded)).
Proof.
  unfold add_image.
  destruct (lookup_canvas canvases id) as [[cv w h es]| |] eqn:L;
    [| destruct (_ || _); [| destruct loaded]; apply effect_none
     | apply effect_none].
  destruct (_ || _) eqn:V; [apply effect_none |].
  destruct loaded as [img |]; [| apply effect_none].
  repeat (apply orb_false_elim in V as [V ?]).
  apply lookup_canvas_own_inv in L. simpl.
  apply (effect_add canvases _ id (Session cv w h es)); try done.
  apply carries_variant_recorded, image_carries;
    value_defined.
Qed.

Lemma add_image_upload_effect (canvases : registry) (id : string)
    (body : JS.object) (file : option (option Canvas.image)) :
  effect canvases (AddImageUpload id body file)
         (snd (add_image_upload canvases id body file)).
Proof.
  unfold add_image_upload.
  destruct (lookup_canvas canvases id) as [[cv w h es]| |] eqn:L;
    [| destruct file as [[]|]; apply effect_none | apply effect_none].
  destruct file as [[img |]|]; try apply effect_none.
  apply lookup_canvas_own_inv in L. simpl.
  apply (effect_add canvases _ id (Session cv w h es)); try done.
  apply upload_carries; value_defined.
Qed.

Lemma delete_canvas_effect (canvases : registry) (id : string) :
  effect canvases (Delete id) (snd (delete_canvas canvases id)).
Proof.
  unfold delete_canvas.
  destruct (lookup_canvas canvases id); simpl;
    apply effect_delete || apply effect_none.
Qed.

Lemma handle_effect (canvases : registry) (req : request) :
  effect canvases req (snd (handle canvases req)).
Proof.
  destruct req; simpl.
  - apply init_effect.
  - apply add_rectangle_effect.
  - apply add_circle_effect.
  - apply add_text_effect.
  - apply add_image_effect.
  - apply add_image_upload_effect.
  - rewrite export_pdf_registry. apply effect_none.
  - rewrite preview_registry. apply effect_none.
  - rewrite info_registry. apply effect_none.
  - apply delete_canvas_effect.
Qed.

Lemma run_snoc (canvases : registry) (reqs : list request) (req : request) :
  run canvases (reqs ++ [req]) = snd (handle (run canvases reqs) req).
Proof. unfold run. by rewrite fold_left_app. Qed.

End Steps.

(** ** The element log *)


Section Log.

Context {R : Canvas.Rasterizer}.



End Log.


(** ** Deleting *)

Lemma effect_absent (canvases st : registry) (req : request) (id : string) :
  effect canvases req st ->
  canvases !! id = None -> issues id req = false -> st !! id = None.
Proof.
  intros E Hid Hreq.
  destruct E as [| uuid body cv w h | req id' s cv e Hid' Hs | id'].
  - exact Hid.
  - simpl in Hreq. apply String.eqb_neq in Hreq.
    by rewrite lookup_insert_ne.
  - rewrite lookup_insert_ne; [done | congruence].
  - apply lookup_delete_None. by right.
Qed.

Section Deleting.

Context {R : Canvas.Rasterizer}.

Lemma run_cons (canvases : registry) (req : request) (reqs : list request) :
  run canvases (req :: reqs) = run (snd (handle canvases req)) reqs.
Proof. reflexivity. Qed.

Lemma run_absent (reqs : list request) (canvases : registry) (id : string) :
  canvases !! id = None ->
  forallb (fun req => negb (issues id req)) reqs = true ->
  run canvases reqs !! id = None.
Proof.
  revert canvases. induction reqs as [| req reqs IH]; intros canvases Hid Hreqs.
  - exact Hid.
  - simpl in Hreqs. apply andb_true_iff in Hreqs as [Hreq Hreqs].
    rewrite run_cons. apply IH; [| done].
    eapply effect_absent; [apply handle_effect | done |].
    by apply negb_true_iff.
Qed.

(** A request that names an identifier under which nothing is stored, and
    which no object inherits, is answered with the not-found response and
    leaves the registry as it was. *)
Lemma handle_absent (canvases : registry) (req : request) (id : string) :
  canvases !! id = None -> id ∉ object_prototype ->
  request_id req = Some id ->
  handle canvases req = (SessionNotFound, canvases).
Proof.
  intros Hid Hproto Hreq.
  pose proof (lookup_canvas_absent _ _ Hid Hproto) as L.
  destruct req; simpl in Hreq; try discriminate; injection Hreq as ->; simpl.
  - unfold add_rectangle. by rewrite L.
  - unfold add_circle. by rewrite L.
  - unfold add_text. by rewrite L.
  - unfold add_image. by rewrite L.
  - unfold add_image_upload. by rewrite L.
  - unfold export_pdf. by rewrite L.
  - unfold preview. by rewrite L.
  - unfold info. by rewrite L.
  - unfold delete_canvas. by rewrite L.
Qed.

(** [init] is the only handler that stores under a new identifier, so the
    identifiers of the stored sessions are the ones [uuidv4()] issued. *)
Lemma run_ids_are_uuids (reqs : list request) (id : string) :
  forallb (fun req => match req with Init uuid _ => is_uuid uuid | _ => true end)
          reqs = true ->
  is_Some (run ∅ reqs !! id) -> is_uuid id = true.
Proof.
  induction reqs as [| req reqs IH] using rev_ind; intros Hreqs Hid.
  - unfold run in Hid. simpl in Hid. rewrite lookup_empty in Hid.
    by destruct Hid.
  - rewrite forallb_app in Hreqs. apply andb_true_iff in Hreqs as [Hreqs Hreq].
    simpl in Hreq. rewrite andb_true_r in Hreq.
    rewrite run_snoc in Hid.
    pose proof (handle_effect (run ∅ reqs) req) as E.
    destruct E as [| uuid body cv w h | req id' s cv e Hid' Hs | id'].
    + by apply IH.
    + destruct (decide (uuid = id)) as [<- | Hne]; [done |].
      rewrite lookup_insert_ne in Hid by done. by apply IH.
    + destruct (decide (id' = id)) as [<- | Hne]; [by apply IH |].
      rewrite lookup_insert_ne in Hid by done. by apply IH.
    + destruct Hid as [s Hs]. apply lookup_delete_Some in Hs as [_ Hs].
      by apply IH.
Qed.

(** C7: deleting an existing session removes its entry; a second delete of
    the identifier is answered with the not-found response, and so is every
    later request that names it, for as long as [uuidv4()] does not issue
    the identifier again. *)
Theorem deleted_session_is_gone (canvases : registry) (id : string)
    (s : session) :
  canvases !! id = Some s ->
  is_uuid id = true ->
  delete_canvas canvases id =
    (ok (Message "Canvas deleted successfully"), delete id canvases) /\
  delete id canvases !! id = None /\
  delete_canvas (delete id canvases) id =
    (SessionNotFound, delete id canvases) /\
  (forall reqs req,
     forallb (fun req => negb (issues id req)) reqs = true ->
     request_id req = Some id ->
     handle (run (delete id canvases) reqs) req =
       (SessionNotFound, run (delete id canvases) reqs)).
Proof.
  intros Hs Hid. pose proof (uuid_not_inherited _ Hid) as Hproto.
  assert (delete id canvases !! id = None) as Hgone by apply lookup_delete_eq.
  repeat split.
  - unfold delete_canvas. by rewrite (lookup_canvas_own _ _ _ Hs).
  - exact Hgone.
  - by apply (handle_absent _ (Delete id) id).
  - intros reqs req Hreqs Hreq. apply (handle_absent _ _ id); try done.
    by apply run_absent.
Qed.

End Deleting.

(** ** Dimensions *)

(** A request that does not store a new session under an identifier leaves
    the dimensions of the session stored there, and of its surface, as they
    were. *)
Lemma effect_keeps_dimensions (canvases st : registry) (req : request)
    (id : string) (s s' : session) :
  effect canvases req st ->
  issues id req = false ->
  canvases !! id = Some s -> st !! id = Some s' ->
  width s' = width s /\ height s' = height s /\
  Canvas.width (canvas s') = Canvas.width (canvas s) /\
  Canvas.height (canvas s') = Canvas.height (canvas s).
Proof.
  intros E Hreq Hs Hs'.
  destruct E as [| uuid body cv w h | req id' s0 cv e Hid' Hs0 Hw Hh | id'].
  - rewrite Hs in Hs'. by injection Hs' as <-.
  - simpl in Hreq. apply String.eqb_neq in Hreq.
    rewrite lookup_insert_ne in Hs' by done.
    rewrite Hs in Hs'. by injection Hs' as <-.
  - destruct (decide (id' = id)) as [-> | Hne].
    + rewrite lookup_insert_eq in Hs'. injection Hs' as <-.
      rewrite Hs in Hs0. injection Hs0 as <-. by simpl.
    + rewrite lookup_insert_ne in Hs' by done.
      rewrite Hs in Hs'. by injection Hs' as <-.
  - apply lookup_delete_Some in Hs' as [_ Hs'].
    rewrite Hs in Hs'. by injection Hs' as <-.
Qed.

(** Dimensions that passed the checks as numbers are the dimensions of the
    surface. *)
Lemma checked_number_is_dimension (n : jsnum) (z : Z) :
  n = Num z -> le n (Num 0) = false -> gt n (Num 5000) = false ->
  n = Num (Canvas.to_uint32 n).
Proof.
  intros -> Hle Hgt. simpl in *.
  apply Z.leb_gt in Hle. apply Z.ltb_ge in Hgt.
  rewrite Z.mod_small; [done | lia].
Qed.

(** As long as every [init] is given dimensions that read as numbers,
    every stored session has a surface of the dimensions it declares. *)
Lemma effect_keeps_surface (canvases st : registry) (req : request) :
  effect canvases req st ->
  (forall uuid body, req = Init uuid body ->
     parseInt (get body "width") <> NaN /\
     parseInt (get body "height") <> NaN) ->
  (forall id s, canvases !! id = Some s -> surface_matches s) ->
  forall id s, st !! id = Some s -> surface_matches s.
Proof.
  intros E Hnum Hinv id0 s0.
  destruct E as [| uuid body cv w h Hw1 Hw2 Hh1 Hh2 Hcw Hch
                 | req id' s cv e Hid' Hs Hw Hh | id'].
  - apply Hinv.
  - destruct (decide (uuid = id0)) as [-> | Hne].
    + rewrite lookup_insert_eq. intros [= <-].
      destruct (Hnum _ _ eq_refl) as [Nw Nh]. subst w h.
      unfold surface_matches. simpl. rewrite Hcw, Hch.
      destruct (parseInt (get body "width")) as [zw |] eqn:Ew; [| done].
      destruct (parseInt (get body "height")) as [zh |] eqn:Eh; [| done].
      split; by eapply checked_number_is_dimension.
    + rewrite lookup_insert_ne by done. apply Hinv.
  - destruct (decide (id' = id0)) as [-> | Hne].
    + rewrite lookup_insert_eq. intros [= <-].
      destruct (Hinv _ _ Hs) as [Mw Mh].
      unfold surface_matches. simpl. by rewrite Hw, Hh.
    + rewrite lookup_insert_ne by done. apply Hinv.
  - intros Hs0. apply lookup_delete_Some in Hs0 as [_ Hs0]. by eapply Hinv.
Qed.

Section Dimensions.

Context {R : Canvas.Rasterizer}.

Lemma handle_keeps_dimensions (canvases : registry) (req : request)
    (id : string) (s s' : session) :
  issues id req = false ->
  canvases !! id = Some s -> snd (handle canvases req) !! id = Some s' ->
  width s' = width s /\ height s' = height s /\
  Canvas.width (canvas s') = Canvas.width (canvas s) /\
  Canvas.height (canvas s') = Canvas.height (canvas s).
Proof. intros. eapply effect_keeps_dimensions; eauto using handle_effect. Qed.

(** C9: a session created from dimensions that are not numerals declares
    the width and height [NaN], which is what [info] reports, while its
    surface is 0 pixels wide and 0 pixels high: the surface does not have
    the dimensions the session declares. *)
Theorem non_numeric_session_mismatches_surface (canvases : registry)
    (uuid : string) :
  exists s,
    snd (init canvases uuid dims_abc) !! uuid = Some s /\
    width s = NaN /\ height s = NaN /\
    Canvas.width (canvas s) = 0 /\ Canvas.height (canvas s) = 0 /\
    ~ surface_matches s /\
    fst (info (snd (init canvases uuid dims_abc)) uuid) =
      ok (Info uuid NaN NaN 0 []).
Proof.
  eexists. split; [apply lookup_insert_eq |].
  repeat split.
  - unfold surface_matches. simpl. intros [H _]. discriminate H.
  - unfold info, lookup_canvas.
    change (snd (init canvases uuid dims_abc))
      with (<[uuid := Session
                (Canvas.fillRect (JNumber (Num 0)) (JNumber (Num 0))
                   (JNumber NaN) (JNumber NaN)
                   (Canvas.set_fillStyle (JString "#ffffff")
                      (Canvas.createCanvas NaN NaN)))
                NaN NaN []]> canvases).
    by rewrite lookup_insert_eq.
Qed.

End Dimensions.

(** ** Painting order *)

Section Order.

Context {R : Canvas.Rasterizer}.











End Order.


(** ** The example of the specification

    A filled red rectangle [{x:50, y:50, width:100, height:80}] on a fresh
    800 by 600 session: [info] shows one rectangle with those fields and
    [isFilled] true, the pixel (100,100) is red and the pixel (0,0) is
    white. *)
Example red_rectangle_example :
  let canvases :=
    run (R := lattice) ∅
      [Init uuid_a dims_800_600;
       AddRectangle uuid_a (box 50 50 100 80 "#ff0000")] in
  fst (info canvases uuid_a) =
    ok (Info uuid_a (Num 800) (Num 600) 1
          [obj [ ("type", JString "rectangle"); ("x", JNumber (Num 50));
                 ("y", JNumber (Num 50)); ("width", JNumber (Num 100));
                 ("height", JNumber (Num 80)); ("color", JString "#ff0000");
                 ("isFilled", JBool true) ]]) /\
  (fun s => Canvas.pixels (canvas s) 100 100) <$> (canvases !! uuid_a) =
    Some (Canvas.RGBA 255 0 0 255) /\
  (fun s => Canvas.pixels (canvas s) 0 0) <$> (canvases !! uuid_a) =
    Some Canvas.white.
Proof. repeat split; vm_compute; reflexivity. Qed.

(** ** The theorems at work on the sample session *)

Lemma sample_registry_holds_session :
  sample_registry !! uuid_a = Some sample_session.
Proof. vm_compute. reflexivity. Qed.


Lemma failed_image_load_changes_nothing_witness :
  add_image (R := lattice) sample_registry uuid_a
            (picture_at "https://example.com/image.jpg" 300 100) None
    = (ImageLoadFailure, sample_registry) /\
  fst (info (snd (add_image (R := lattice) sample_registry uuid_a
                    (picture_at "https://example.com/image.jpg" 300 100)
                    None)) uuid_a)
    = ok (Info uuid_a (Num 800) (Num 600) 0 []).
Proof.
  apply (failed_image_load_changes_nothing (R := lattice) sample_registry
           uuid_a sample_session
           (picture_at "https://example.com/image.jpg" 300 100)).
  - vm_compute. reflexivity.
  - reflexivity.
  - reflexivity.
  - reflexivity.
Defined.

Lemma zero_or_empty_field_counts_as_missing_witness :
  add_rectangle (R := lattice) sample_registry uuid_a (box 50 50 0 80 "#ff0000")
    = (failed 400 "x, y, width, and height are required", sample_registry) /\
  add_circle (R := lattice) sample_registry uuid_a
             (obj [ ("x", JNumber (Num 200)); ("y", JNumber (Num 200));
                    ("radius", JNumber (Num 0)) ])
    = (failed 400 "x, y, and radius are required", sample_registry) /\
  add_text (R := lattice) sample_registry uuid_a
           (obj [ ("text", JString ""); ("x", JNumber (Num 100));
                  ("y", JNumber (Num 100)) ])
    = (failed 400 "text, x, and y are required", sample_registry).
Proof.
  split; [| split].
  - apply (zero_or_empty_field_counts_as_missing (R := lattice)
             sample_registry uuid_a sample_session _).
    + vm_compute. reflexivity.
    + left. reflexivity.
  - apply (zero_or_empty_field_counts_as_missing (R := lattice)
             sample_registry uuid_a sample_session _).
    + vm_compute. reflexivity.
    + reflexivity.
  - apply (zero_or_empty_field_counts_as_missing (R := lattice)
             sample_registry uuid_a sample_session _).
    + vm_compute. reflexivity.
    + reflexivity.
Defined.

Lemma init_creates_white_session_witness :
  exists cv,
    init (R := lattice) ∅ uuid_a dims_800_600 =
      (ok (Initialized uuid_a "Canvas initialized successfully"
                       (Num 800) (Num 600)),
       <[uuid_a := Session cv (Num 800) (Num 600) []]> ∅) /\
    solid Canvas.white 800 600 (Canvas.toBuffer cv) /\
    fst (preview (snd (init (R := lattice) ∅ uuid_a dims_800_600)) uuid_a) =
      ok (PngImage (Canvas.toBuffer cv)) /\
    fst (info (snd (init (R := lattice) ∅ uuid_a dims_800_600)) uuid_a) =
      ok (Info uuid_a (Num 800) (Num 600) 0 []).
Proof.
  apply (init_creates_white_session (R := lattice) ∅ uuid_a dims_800_600
           800 600).
  - reflexivity.
  - reflexivity.
  - lia.
  - lia.
Defined.

Lemma deleted_session_is_gone_witness :
  is_uuid uuid_a = true /\
  delete_canvas sample_registry uuid_a =
    (ok (Message "Canvas deleted successfully"),
     delete uuid_a sample_registry) /\
  delete uuid_a sample_registry !! uuid_a = None /\
  delete_canvas (delete uuid_a sample_registry) uuid_a =
    (SessionNotFound, delete uuid_a sample_registry) /\
  (forall reqs req,
     forallb (fun req => negb (issues uuid_a req)) reqs = true ->
     request_id req = Some uuid_a ->
     handle (R := lattice)
            (run (R := lattice) (delete uuid_a sample_registry) reqs) req =
       (SessionNotFound,
        run (R := lattice) (delete uuid_a sample_registry) reqs)).
Proof.
  split; [reflexivity |].
  apply (deleted_session_is_gone (R := lattice) sample_registry uuid_a
           sample_session).
  - vm_compute. reflexivity.
  - reflexivity.
Defined.


(** * Further properties of the handlers *)

(** ** Requests that are turned down *)

Section Rejections.

Context {R : Canvas.Rasterizer}.

(** A request that is not answered 200 leaves the registry as it was. *)
Lemma handle_rejected (canvases : registry) (req : request) :
  status (fst (handle canvases req)) <> 200 ->
  snd (handle canvases req) = canvases.
Proof.
  destruct req as [uuid body | id body | id body | id body | id body loaded
                  | id body file | id | id | id | id]; simpl.
  - apply init_failure_registry.
  - unfold add_rectangle.
    destruct (lookup_canvas canvases id) as [[cv w h es]| |]; try done;
      destruct (_ || _); simpl; congruence.
  - unfold add_circle.
    destruct (lookup_canvas canvases id) as [[cv w h es]| |]; try done;
      destruct (_ || _); simpl; congruence.
  - unfold add_text.
    destruct (lookup_canvas canvases id) as [[cv w h es]| |]; try done;
      destruct (_ || _); simpl; congruence.
  - unfold add_image.
    destruct (lookup_canvas canvases id) as [[cv w h es]| |]; try done;
      destruct (_ || _); try done; destruct loaded; simpl; congruence.
  - unfold add_image_upload.
    destruct (lookup_canvas canvases id) as [[cv w h es]| |]; try done;
      destruct file as [[img |]|]; simpl; congruence.
  - intros _. apply export_pdf_registry.
  - intros _. apply preview_registry.
  - intros _. apply info_registry.
  - unfold delete_canvas.
    destruct (lookup_canvas canvases id); simpl; congruence.
Qed.

(** A request changes nothing under an identifier that is not its own. *)
Lemma handle_frame (canvases : registry) (req : request) (id : string) :
  id <> target req ->
  snd (handle canvases req) !! id = canvases !! id.
Proof.
  intros Hid. pose proof (handle_effect canvases req) as E.
  remember (snd (handle canvases req)) as st eqn:Est. clear Est.
  destruct E as [| uuid body cv w h | req id' s cv e Hid' Hs | id'].
  - done.
  - simpl in Hid. by rewrite lookup_insert_ne.
  - assert (target req = id') as <-
      by (destruct req; simpl in *; congruence).
    by rewrite lookup_insert_ne.
  - simpl in Hid. by rewrite lookup_delete_ne.
Qed.


(** X2: sessions are isolated from one another.  A request changes nothing
    under any identifier but its own: every other session is stored as it
    was, and [info], [preview] and [export/pdf] answer for it as before. *)
Theorem other_sessions_untouched (canvases : registry) (req : request)
    (id : string) :
  id <> target req ->
  snd (handle canvases req) !! id = canvases !! id /\
  fst (info (snd (handle canvases req)) id) = fst (info canvases id) /\
  fst (preview (snd (handle canvases req)) id) = fst (preview canvases id) /\
  fst (export_pdf (snd (handle canvases req)) id) =
    fst (export_pdf canvases id).
Proof.
  intros H. pose proof (handle_frame canvases req id H) as E.
  split; [exact E |].
  unfold info, preview, export_pdf, lookup_canvas. rewrite E.
  destruct (canvases !! id) as [[cv w h es] |]; [by repeat split |].
  by destruct (bool_decide (id ∈ object_prototype)).
Qed.

(** The responses other than the not-found one. *)
Lemma own_not_reported_missing (canvases : registry) (req : request)
    (id : string) :
  request_id req = Some id ->
  lookup_canvas canvases id <> Absent ->
  fst (handle canvases req) <> SessionNotFound.
Proof.
  intros Hreq Hl.
  destruct req; simpl in Hreq; try discriminate; injection Hreq as ->; simpl.
  - unfold add_rectangle.
    destruct (lookup_canvas canvases id) as [[cv w h es]| |]; try done;
      destruct (_ || _); simpl; discriminate.
  - unfold add_circle.
    destruct (lookup_canvas canvases id) as [[cv w h es]| |]; try done;
      destruct (_ || _); simpl; discriminate.
  - unfold add_text.
    destruct (lookup_canvas canvases id) as [[cv w h es]| |]; try done;
      destruct (_ || _); simpl; discriminate.
  - unfold add_image.
    destruct (lookup_canvas canvases id) as [[cv w h es]| |]; try done;
      destruct (_ || _); try discriminate; destruct loaded; simpl; discriminate.
  - unfold add_image_upload.
    destruct (lookup_canvas canvases id) as [[cv w h es]| |]; try done;
      destruct file as [[img |]|]; simpl; discriminate.
  - unfold export_pdf.
    destruct (lookup_canvas canvases id) as [[cv w h es]| |]; try done;
      simpl; discriminate.
  - unfold preview.
    destruct (lookup_canvas canvases id) as [[cv w h es]| |]; try done;
      simpl; discriminate.
  - unfold info.
    destruct (lookup_canvas canvases id) as [[cv w h es]| |]; try done;
      simpl; discriminate.
  - unfold delete_canvas.
    destruct (lookup_canvas canvases id) as [[cv w h es]| |]; try done;
      simpl; discriminate.
Qed.

(** X3: a request that names an identifier is answered "Canvas not found"
    exactly when nothing is stored under the identifier and the identifier
    is not the name of a member every object inherits; the registry is then
    left as it was. *)
Theorem not_found_exactly_when_unresolvable (canvases : registry)
    (req : request) (id : string) :
  request_id req = Some id ->
  (fst (handle canvases req) = SessionNotFound <->
   canvases !! id = None /\ id ∉ object_prototype) /\
  (canvases !! id = None -> id ∉ object_prototype ->
   snd (handle canvases req) = canvases).
Proof.
  intros Hreq. split; [split |].
  - intros Hres.
    destruct (canvases !! id) as [s |] eqn:Hs.
    + exfalso. apply (own_not_reported_missing canvases req id Hreq); [| done].
      by rewrite (lookup_canvas_own _ _ _ Hs).
    + split; [done |]. intros Hin.
      apply (own_not_reported_missing canvases req id Hreq); [| done].
      by rewrite (lookup_canvas_inherited _ _ Hs Hin).
  - intros [Hs Hproto]. by rewrite (handle_absent _ _ _ Hs Hproto Hreq).
  - intros Hs Hproto. by rewrite (handle_absent _ _ _ Hs Hproto Hreq).
Qed.

End Rejections.

(** ** What a session keeps over a run *)

(** One request on a session that is still there afterwards: its log is as
    it was or one element longer, and its dimensions and those of its
    surface are as they were. *)
Lemma effect_on_session (canvases st : registry) (req : request)
    (id : string) (s s' : session) :
  effect canvases req st ->
  issues id req = false ->
  canvases !! id = Some s -> st !! id = Some s' ->
  (elements s' = elements s \/
   exists e : element, elements s' = (elements s ++ [e])%list) /\
  width s' = width s /\ height s' = height s /\
  Canvas.width (canvas s') = Canvas.width (canvas s) /\
  Canvas.height (canvas s') = Canvas.height (canvas s).
Proof.
  intros E Hreq Hs Hs'.
  destruct (effect_keeps_dimensions _ _ _ _ _ _ E Hreq Hs Hs') as (? & ? & ? & ?).
  split; [| done].
  destruct E as [| uuid body cv w h | req id' s0 cv e Hid' Hs0 Hw Hh | id'].
  - left. congruence.
  - simpl in Hreq. apply String.eqb_neq in Hreq.
    rewrite lookup_insert_ne in Hs' by done. left. congruence.
  - destruct (decide (id' = id)) as [-> | Hne].
    + rewrite lookup_insert_eq in Hs'. injection Hs' as <-.
      rewrite Hs in Hs0. injection Hs0 as <-. right. by exists e.
    + rewrite lookup_insert_ne in Hs' by done. left. congruence.
  - apply lookup_delete_Some in Hs' as [_ Hs']. left. congruence.
Qed.

Lemma effect_well_sized (canvases st : registry) (req : request) :
  effect canvases req st ->
  numeric_init req = true ->
  (forall id s, canvases !! id = Some s -> well_sized s) ->
  forall id s, st !! id = Some s -> well_sized s.
Proof.
  intros E Hnum Hinv id0 s0.
  destruct E as [| uuid body cv w h Hw1 Hw2 Hh1 Hh2 Hcw Hch
                 | req id' s cv e Hid' Hs Hw Hh | id'].
  - apply Hinv.
  - destruct (decide (uuid = id0)) as [-> | Hne].
    + rewrite lookup_insert_eq. intros [= <-]. simpl in Hnum. subst w h.
      destruct (parseInt (get body "width")) as [zw |]; [| done].
      destruct (parseInt (get body "height")) as [zh |]; [| done].
      simpl in *. apply Z.leb_gt in Hw1, Hh1. apply Z.ltb_ge in Hw2, Hh2.
      exists zw, zh. simpl. rewrite Hcw, Hch. simpl.
      rewrite !Z.mod_small by lia. repeat split; lia.
    + rewrite lookup_insert_ne by done. apply Hinv.
  - destruct (decide (id' = id0)) as [-> | Hne].
    + rewrite lookup_insert_eq. intros [= <-].
      destruct (Hinv _ _ Hs) as (zw & zh & ? & ? & ? & ? & ? & ?).
      exists zw, zh. simpl. repeat split; congruence || lia.
    + rewrite lookup_insert_ne by done. apply Hinv.
  - intros Hs0. apply lookup_delete_Some in Hs0 as [_ Hs0]. by eapply Hinv.
Qed.

Section Kept.

Context {R : Canvas.Rasterizer}.

(** X4: the log of a session is append-only.  Over any sequence of requests
    during which the identifier is not issued again, a session that is
    still stored has its old log as a prefix of its new one, and the log
    has grown by at most one element per request. *)
Theorem log_only_grows (reqs : list request) (canvases : registry)
    (id : string) (s s' : session) :
  forallb (fun req => negb (issues id req)) reqs = true ->
  canvases !! id = Some s ->
  run canvases reqs !! id = Some s' ->
  elements s `prefix_of` elements s' /\
  (length (elements s') <= length (elements s) + length reqs)%nat.
Proof.
  revert canvases s.
  induction reqs as [| req reqs IH]; intros canvases s Hreqs Hs Hs'.
  - unfold run in Hs'. simpl in Hs'. rewrite Hs in Hs'. injection Hs' as <-.
    split; [done | lia].
  - simpl in Hreqs. apply andb_true_iff in Hreqs as [Hreq Hreqs].
    apply negb_true_iff in Hreq. rewrite run_cons in Hs'.
    destruct (snd (handle canvases req) !! id) as [s1 |] eqn:Hs1.
    + destruct (IH _ _ Hreqs Hs1 Hs') as [Hpre Hlen].
      destruct (effect_on_session _ _ _ _ _ _ (handle_effect canvases req)
                  Hreq Hs Hs1) as [[E | [e E]] _]; rewrite E in *.
      * split; [done | simpl; lia].
      * split.
        -- etrans; [| exact Hpre]. by apply prefix_app_r.
        -- rewrite length_app in Hlen. simpl in *. lia.
    + rewrite (run_absent reqs _ id Hs1 Hreqs) in Hs'. discriminate.
Qed.

(** X5: the width and height of a session, and the pixel dimensions of its
    surface, are fixed at creation: no sequence of requests during which
    the identifier is not issued again changes them. *)
Theorem dimensions_fixed_over_runs (reqs : list request)
    (canvases : registry) (id : string) (s s' : session) :
  forallb (fun req => negb (issues id req)) reqs = true ->
  canvases !! id = Some s ->
  run canvases reqs !! id = Some s' ->
  width s' = width s /\ height s' = height s /\
  Canvas.width (canvas s') = Canvas.width (canvas s) /\
  Canvas.height (canvas s') = Canvas.height (canvas s).
Proof.
  revert canvases s.
  induction reqs as [| req reqs IH]; intros canvases s Hreqs Hs Hs'.
  - unfold run in Hs'. simpl in Hs'. rewrite Hs in Hs'. by injection Hs' as <-.
  - simpl in Hreqs. apply andb_true_iff in Hreqs as [Hreq Hreqs].
    apply negb_true_iff in Hreq. rewrite run_cons in Hs'.
    destruct (snd (handle canvases req) !! id) as [s1 |] eqn:Hs1.
    + destruct (IH _ _ Hreqs Hs1 Hs') as (? & ? & ? & ?).
      destruct (handle_keeps_dimensions _ _ _ _ _ Hreq Hs Hs1)
        as (? & ? & ? & ?).
      repeat split; congruence.
    + rewrite (run_absent reqs _ id Hs1 Hreqs) in Hs'. discriminate.
Qed.

(** X6: as long as every [init] is given dimensions that read as numbers,
    every session the registry ever holds declares a width and a height
    between 1 and 5000, and its surface has exactly those dimensions. *)
Theorem numeric_inits_keep_sessions_well_sized (reqs : list request)
    (id : string) (s : session) :
  forallb numeric_init reqs = true ->
  run ∅ reqs !! id = Some s ->
  well_sized s.
Proof.
  revert id s. induction reqs as [| req reqs IH] using rev_ind;
    intros id s Hreqs Hs.
  - unfold run in Hs. simpl in Hs. by rewrite lookup_empty in Hs.
  - rewrite forallb_app in Hreqs. apply andb_true_iff in Hreqs as [Hreqs Hreq].
    simpl in Hreq. rewrite andb_true_r in Hreq. rewrite run_snoc in Hs.
    eapply effect_well_sized; [apply handle_effect | done | | done].
    intros id0 s0. by apply IH.
Qed.


End Kept.

(** ** Adding elements *)

Section MoreAdding.

Context {R : Canvas.Rasterizer}.






(** X14: an image added from a URL is logged with the [url], [x] and [y]
    that were sent, and with the width and height that were sent unless
    one is missing or zero, in which case the natural size of the image is
    logged in its place. *)
Theorem image_box_defaults_to_natural_size (canvases : registry) (id : string)
    (s : session) (body : JS.object) (img : Canvas.image) :
  canvases !! id = Some s ->
  accepted (ImageFrom body (Some img)) = true ->
  exists s' (e : element),
    snd (add_image canvases id body (Some img)) !! id = Some s' /\
    elements s' = (elements s ++ [e])%list /\
    get e "url" = get body "url" /\
    get e "x" = get body "x" /\ get e "y" = get body "y" /\
    get e "width" =
      (if truthy (get body "width") then get body "width"
       else JNumber (Num (Canvas.img_width img))) /\
    get e "height" =
      (if truthy (get body "height") then get body "height"
       else JNumber (Num (Canvas.img_height img))).
Proof.
  intros Hs Hd. cbn [accepted] in Hd.
  apply andb_true_iff in Hd as [Hd _]. apply negb_true_iff in Hd.
  unfold add_image. rewrite (lookup_canvas_own _ _ _ Hs), Hd.
  destruct s as [cv sw sh es]. cbn [snd]. rewrite lookup_insert_eq.
  eexists _, _. split; [reflexivity |]. split; [reflexivity |].
  repeat split.
Qed.

End MoreAdding.

(** ** Painting *)

Section MorePainting.

Context {R : Canvas.Rasterizer}.






End MorePainting.

(** * The client and the server together *)

Lemma get_insert_eq (o : JS.object) (k : string) (v : jsval) :
  get (<[k := v]> o) k = v.
Proof. unfold get, JS.object in *. by rewrite lookup_insert_eq. Qed.

Lemma get_insert_ne (o : JS.object) (k k' : string) (v : jsval) :
  k <> k' -> get (<[k := v]> o) k' = get o k'.
Proof. intros H. unfold get, JS.object in *. by rewrite lookup_insert_ne. Qed.

Lemma number_input_integer (value : string) (fallback : Z) :
  App.is_integer (App.number_input value fallback) = true.
Proof.
  unfold App.number_input, JS.or.
  destruct (parseInt (JString value)) as [z |]; simpl; [| done].
  by destruct (z =? 0).
Qed.

(** Typing into an input leaves an integer in every number box. *)
Lemma change_number_boxes (i : App.input) (value : string) (checked : bool)
    (ui : App.state) :
  forallb App.is_integer (App.number_boxes ui) = true ->
  forallb App.is_integer (App.number_boxes (App.change i value checked ui))
    = true.
Proof.
  intros H. unfold App.number_boxes in *. cbn [forallb] in *.
  repeat (apply andb_true_iff in H as [? H]).
  destruct i; cbn [App.change App.setDimensions App.setRectForm
                   App.setCircleForm App.setTextForm App.setImageForm
                   App.dimensions App.rectForm App.circleForm App.textForm
                   App.imageForm];
    repeat first [ rewrite get_insert_eq | rewrite get_insert_ne by done ];
    rewrite ?number_input_integer;
    repeat (apply andb_true_iff; split); done.
Qed.

Section Together.

Context {R : Canvas.Rasterizer}.

(** The forms a click leaves are the forms it found. *)
Lemma refreshPreview_forms (ui : App.state) (canvases : registry) :
  App.number_boxes (fst (App.refreshPreview ui canvases)) = App.number_boxes ui
  /\ App.canvasId (fst (App.refreshPreview ui canvases)) = App.canvasId ui.
Proof.
  unfold App.refreshPreview. destruct ui as [[id |] dims es rf cf tf imf];
    cbn [App.canvasId]; [| done].
  destruct (App.no_canvas _); [done |].
  destruct (App.resolved _); [| done].
  by destruct (body _).
Qed.

Lemma add_click_forms (ui : App.state) (canvases : registry)
    (post : registry -> string -> response * registry) :
  App.number_boxes (fst (fst (App.add_click ui canvases post)))
    = App.number_boxes ui /\
  App.canvasId (fst (fst (App.add_click ui canvases post))) = App.canvasId ui.
Proof.
  unfold App.add_click. destruct (App.canvasId ui) as [id |] eqn:Hid; [| done].
  destruct (App.no_canvas ui); [done |].
  destruct (post canvases id) as [res st].
  destruct (App.resolved res); [| done].
  pose proof (refreshPreview_forms ui st) as [Hb Hc].
  destruct (App.refreshPreview ui st) as [ui' rs]. simpl in *.
  by rewrite Hb, Hc.
Qed.

Lemma click_number_boxes (ui : App.state) (canvases : registry)
    (b : App.button) :
  App.number_boxes (fst (fst (App.click ui canvases b))) = App.number_boxes ui.
Proof.
  destruct b; cbn [App.click]; try apply add_click_forms.
  - destruct (init canvases uuid (App.dimensions ui)) as [res st].
    destruct (App.resolved res); [| done]. by destruct (body res).
  - destruct (App.canvasId ui); [| done]. destruct (App.no_canvas ui); [done |].
    by destruct (export_pdf canvases _).
  - destruct (App.canvasId ui); [| done]. destruct (App.no_canvas ui); [done |].
    by destruct (delete_canvas canvases _).
Qed.

(** X15: whatever is typed into the page and whichever buttons are
    clicked, every number box of every form (the canvas dimensions, the
    positions, sizes, radius and font size) holds an integer: never [NaN],
    never a string. *)
Theorem number_boxes_hold_integers (canvases : registry)
    (evs : list App.event) :
  forallb App.is_integer
    (App.number_boxes (fst (fst (App.play App.initial canvases evs)))) = true.
Proof.
  assert (forall evs ui st,
            forallb App.is_integer (App.number_boxes ui) = true ->
            forallb App.is_integer
              (App.number_boxes (fst (fst (App.play ui st evs)))) = true) as G.
  { clear evs. induction evs as [| ev evs IH]; intros ui st H; [done |].
    cbn [App.play].
    destruct (App.step ui st ev) as [[ui1 st1] rs1] eqn:E.
    specialize (IH ui1 st1).
    destruct (App.play ui1 st1 evs) as [[ui2 st2] rs2]. simpl. apply IH.
    destruct ev as [i value checked | b]; simpl in E.
    - injection E as <- <- <-. by apply change_number_boxes.
    - pose proof (click_number_boxes ui st b) as Hb. rewrite E in Hb.
      simpl in Hb. by rewrite Hb. }
  by apply G.
Qed.

End Together.

(** ** One client and the server *)

(** A stored session stays stored through any request but a delete. *)
Lemma effect_stays (canvases st : registry) (req : request) (id : string)
    (s : session) :
  effect canvases req st ->
  (forall id', req <> Delete id') ->
  canvases !! id = Some s -> is_Some (st !! id).
Proof.
  intros E Hreq Hs.
  destruct E as [| uuid body cv w h | req id' s0 cv e Hid' Hs0 | id'].
  - by rewrite Hs.
  - destruct (decide (uuid = id)) as [-> | Hne].
    + by rewrite lookup_insert_eq.
    + by rewrite lookup_insert_ne, Hs.
  - destruct (decide (id' = id)) as [-> | Hne].
    + by rewrite lookup_insert_eq.
    + by rewrite lookup_insert_ne, Hs.
  - by destruct (Hreq id').
Qed.

Section System.

Context {R : Canvas.Rasterizer}.

(** [init] answers 400 and stores nothing, or answers 200 with the
    identifier and stores a session with an empty log. *)
Lemma init_cases (canvases : registry) (uuid : string) (body : JS.object) :
  (exists msg, init canvases uuid body = (failed 400 msg, canvases)) \/
  (exists cv w h,
     init canvases uuid body =
       (ok (Initialized uuid "Canvas initialized successfully" w h),
        <[uuid := Session cv w h []]> canvases)).
Proof.
  unfold init.
  destruct (JS.not _ || JS.not _); [left; by eexists |].
  destruct (le _ _ || le _ _); [left; by eexists |].
  destruct (gt _ _ || gt _ _); [left; by eexists |].
  right. by eexists _, _, _.
Qed.

(** A request on a stored or inherited identifier is never answered 404. *)
Lemma resolvable_status (canvases : registry) (req : request) (id : string) :
  request_id req = Some id ->
  lookup_canvas canvases id <> Absent ->
  status (fst (handle canvases req)) <> 404.
Proof.
  intros Hreq Hl.
  destruct req; simpl in Hreq; try discriminate; injection Hreq as ->; simpl.
  - unfold add_rectangle.
    destruct (lookup_canvas canvases id) as [[cv w h es]| |]; try done;
      destruct (_ || _); simpl; discriminate.
  - unfold add_circle.
    destruct (lookup_canvas canvases id) as [[cv w h es]| |]; try done;
      destruct (_ || _); simpl; discriminate.
  - unfold add_text.
    destruct (lookup_canvas canvases id) as [[cv w h es]| |]; try done;
      destruct (_ || _); simpl; discriminate.
  - unfold add_image.
    destruct (lookup_canvas canvases id) as [[cv w h es]| |]; try done;
      destruct (_ || _); try discriminate; destruct loaded; simpl; discriminate.
  - unfold add_image_upload.
    destruct (lookup_canvas canvases id) as [[cv w h es]| |]; try done;
      destruct file as [[img |]|]; simpl; discriminate.
  - unfold export_pdf.
    destruct (lookup_canvas canvases id) as [[cv w h es]| |]; try done;
      simpl; discriminate.
  - unfold preview.
    destruct (lookup_canvas canvases id) as [[cv w h es]| |]; try done;
      simpl; discriminate.
  - unfold info.
    destruct (lookup_canvas canvases id) as [[cv w h es]| |]; try done;
      simpl; discriminate.
  - unfold delete_canvas.
    destruct (lookup_canvas canvases id) as [[cv w h es]| |]; try done;
      simpl; discriminate.
Qed.

Lemma integer_box_parses (v : jsval) :
  App.is_integer v = true -> exists z, parseInt v = Num z.
Proof. destruct v as [| | | [z |] |]; try done. by exists z. Qed.

Lemma add_click_steady (ui : App.state) (canvases : registry)
    (mk : string -> request) :
  (forall id, request_id (mk id) = Some id) ->
  (forall id id', mk id <> Delete id') ->
  steady ui canvases ->
  let '(ui', st, rs) :=
    App.add_click ui canvases (fun st id => handle st (mk id)) in
  steady ui' st /\ none_404 rs.
Proof.
  intros Hmk Hnd (Hbox & Hsized & Hlink).
  pose proof (add_click_forms ui canvases (fun st id => handle st (mk id)))
    as [Hb Hc].
  unfold App.add_click in *. unfold in_step_with in Hlink.
  destruct (App.canvasId ui) as [id |] eqn:Hid;
    [| split; [| constructor]; repeat split; try done;
       unfold in_step_with; by rewrite Hid].
  destruct (App.no_canvas ui) eqn:Hno.
  { split; [| constructor]. repeat split; try done.
    unfold in_step_with. by rewrite Hid. }
  destruct Hlink as (s & Hs & Hes).
  destruct (handle canvases (mk id)) as [res st] eqn:E.
  assert (snd (handle canvases (mk id)) = st) as Est by by rewrite E.
  assert (fst (handle canvases (mk id)) = res) as Eres by by rewrite E.
  assert (status res <> 404) as H404.
  { rewrite <- Eres. apply (resolvable_status _ _ id (Hmk id)).
    by rewrite (lookup_canvas_own _ _ _ Hs). }
  assert (forall id0 s0, st !! id0 = Some s0 -> well_sized s0) as Hsized'.
  { rewrite <- Est. apply (effect_well_sized canvases _ (mk id));
      [apply handle_effect | | done].
    specialize (Hmk id). by destruct (mk id). }
  destruct (App.resolved res) eqn:Hres.
  - destruct (effect_stays canvases st (mk id) id s) as [s1 Hs1];
      [rewrite <- Est; apply handle_effect | apply Hnd | done |].
    unfold App.refreshPreview in *. rewrite Hid, Hno in *.
    rewrite (info_own _ _ _ Hs1) in *. simpl in *.
    split; [| by repeat constructor].
    repeat split; try done.
    unfold in_step_with. simpl. rewrite Hid. by exists s1.
  - split; [| by repeat constructor].
    assert (st = canvases) as ->.
    { rewrite <- Est. apply handle_rejected. rewrite Eres.
      intros H200. unfold App.resolved in Hres. rewrite H200 in Hres.
      discriminate. }
    repeat split; try done. unfold in_step_with. rewrite Hid. by exists s.
Qed.

Lemma click_steady (ui : App.state) (canvases : registry) (b : App.button) :
  steady ui canvases ->
  let '(ui', st, rs) := App.click ui canvases b in
  steady ui' st /\ none_404 rs.
Proof.
  intros Hst. destruct b as [uuid | | | | loaded | |]; cbn [App.click].
  - destruct Hst as (Hbox & Hsized & Hlink).
    assert (numeric_init (Init uuid (App.dimensions ui)) = true) as Hnum.
    { unfold App.number_boxes in Hbox. cbn [forallb] in Hbox.
      apply andb_true_iff in Hbox as [Hw Hbox].
      apply andb_true_iff in Hbox as [Hh _].
      destruct (integer_box_parses _ Hw) as [zw Ew].
      destruct (integer_box_parses _ Hh) as [zh Eh].
      simpl. by rewrite Ew, Eh. }
    pose proof (effect_well_sized canvases _ _
                  (handle_effect canvases (Init uuid (App.dimensions ui)))
                  Hnum Hsized) as Hsized'.
    simpl in Hsized'.
    destruct (init_cases canvases uuid (App.dimensions ui))
      as [[msg E] | (cv & w & h & E)]; rewrite E in *; simpl in *.
    + split; [done | by repeat constructor].
    + split; [| by repeat constructor].
      repeat split; try done.
      unfold in_step_with. simpl. eexists. by rewrite lookup_insert_eq.
  - by apply (add_click_steady ui canvases
                (fun id => AddRectangle id (App.rectForm ui))).
  - by apply (add_click_steady ui canvases
                (fun id => AddCircle id (App.circleForm ui))).
  - by apply (add_click_steady ui canvases
                (fun id => AddText id (App.textForm ui))).
  - by apply (add_click_steady ui canvases
                (fun id => AddImage id (App.imageForm ui) loaded)).
  - destruct Hst as (Hbox & Hsized & Hlink).
    pose proof Hlink as Hlink'. unfold in_step_with in Hlink'.
    destruct (App.canvasId ui) as [id |] eqn:Hid;
      [| split; [done | constructor]].
    destruct (App.no_canvas ui); [split; [done | constructor] |].
    destruct Hlink' as (s & Hs & _).
    pose proof (export_pdf_registry canvases id) as Ereg.
    pose proof (resolvable_status canvases (ExportPdf id) id eq_refl) as H404.
    simpl in H404. rewrite (lookup_canvas_own _ _ _ Hs) in H404.
    destruct (export_pdf canvases id) as [res st]. simpl in *. subst st.
    split; [done |]. repeat constructor. by apply H404.
  - destruct Hst as (Hbox & Hsized & Hlink).
    pose proof Hlink as Hlink'. unfold in_step_with in Hlink'.
    destruct (App.canvasId ui) as [id |] eqn:Hid;
      [| split; [done | constructor]].
    destruct (App.no_canvas ui); [split; [done | constructor] |].
    destruct Hlink' as (s & Hs & _).
    pose proof (effect_well_sized canvases _ _
                  (handle_effect canvases (Delete id)) eq_refl Hsized)
      as Hsized'.
    pose proof (resolvable_status canvases (Delete id) id eq_refl) as H404.
    simpl in H404, Hsized'. rewrite (lookup_canvas_own _ _ _ Hs) in H404.
    destruct (delete_canvas canvases id) as [res st]. simpl in *.
    split; [done |]. repeat constructor. by apply H404.
Qed.

Lemma play_steady (evs : list App.event) (ui : App.state)
    (canvases : registry) :
  steady ui canvases ->
  let '(ui', st, rs) := App.play ui canvases evs in
  steady ui' st /\ none_404 rs.
Proof.
  revert ui canvases. induction evs as [| ev evs IH]; intros ui canvases Hst.
  - split; [done | constructor].
  - cbn [App.play].
    assert (let '(ui1, st1, rs1) := App.step ui canvases ev in
            steady ui1 st1 /\ none_404 rs1) as H1.
    { destruct ev as [i value checked | b]; cbn [App.step].
      - destruct Hst as (Hbox & Hsized & Hlink).
        split; [| constructor]. repeat split; try done.
        + by apply change_number_boxes.
        + unfold in_step_with in *. by destruct i.
      - by apply click_steady. }
    destruct (App.step ui canvases ev) as [[ui1 st1] rs1].
    destruct H1 as [H1 Hr1]. specialize (IH ui1 st1 H1).
    destruct (App.play ui1 st1 evs) as [[ui2 st2] rs2].
    destruct IH as [IH Hr2]. split; [done |]. by apply Forall_app.
Qed.

Lemma initial_steady : steady App.initial ∅.
Proof.
  repeat split; try done; intros id s Hs; by rewrite lookup_empty in Hs.
Qed.

(** X16: through the client, the defect of [init] is out of reach.
    Whatever is typed and clicked, starting from the page as it loads and
    an empty registry, every session the server holds declares dimensions
    between 1 and 5000 and has a surface of exactly those dimensions. *)
Theorem client_sessions_are_well_sized (evs : list App.event) (id : string)
    (s : session) :
  snd (fst (App.play App.initial ∅ evs)) !! id = Some s ->
  well_sized s.
Proof.
  pose proof (play_steady evs _ _ initial_steady) as H.
  destruct (App.play App.initial ∅ evs) as [[ui st] rs].
  destruct H as [(_ & Hsized & _) _]. apply Hsized.
Qed.



End System.

(** ** Sessions the client leaves behind *)

Section Orphans.

Context {R : Canvas.Rasterizer}.

Lemma target_of_named (req : request) (id : string) :
  request_id req = Some id -> target req = id.
Proof. destruct req; simpl; congruence. Qed.

Lemma add_click_elsewhere (ui : App.state) (canvases : registry)
    (mk : string -> request) (id : string) :
  (forall id0, request_id (mk id0) = Some id0) ->
  App.canvasId ui <> Some id ->
  snd (fst (App.add_click ui canvases (fun st id0 => handle st (mk id0)))) !! id
    = canvases !! id /\
  App.canvasId
    (fst (fst (App.add_click ui canvases (fun st id0 => handle st (mk id0)))))
    <> Some id.
Proof.
  intros Hmk Hid.
  pose proof (add_click_forms ui canvases (fun st id0 => handle st (mk id0)))
    as [_ Hc].
  split; [| by rewrite Hc].
  unfold App.add_click. destruct (App.canvasId ui) as [id0 |] eqn:E; [| done].
  destruct (App.no_canvas ui); [done |].
  pose proof (handle_frame canvases (mk id0) id) as Hf.
  rewrite (target_of_named _ _ (Hmk id0)) in Hf.
  destruct (handle canvases (mk id0)) as [res st]. simpl in Hf.
  destruct (App.resolved res).
  - destruct (App.refreshPreview ui st). simpl. apply Hf. congruence.
  - simpl. apply Hf. congruence.
Qed.

Lemma step_elsewhere (ui : App.state) (canvases : registry) (ev : App.event)
    (id : string) :
  App.canvasId ui <> Some id ->
  App.stores_under id ev = false ->
  snd (fst (App.step ui canvases ev)) !! id = canvases !! id /\
  App.canvasId (fst (fst (App.step ui canvases ev))) <> Some id.
Proof.
  intros Hid Hev. destruct ev as [i value checked | b]; cbn [App.step].
  - split; [done |]. by destruct i.
  - destruct b as [uuid | | | | loaded | |]; cbn [App.click].
    + simpl in Hev. apply String.eqb_neq in Hev.
      pose proof (handle_frame canvases (Init uuid (App.dimensions ui)) id)
        as Hf. simpl in Hf.
      destruct (init_cases canvases uuid (App.dimensions ui))
        as [[msg E] | (cv & w & h & E)]; rewrite E in *; simpl in *.
      * done.
      * split; [by apply Hf |]. congruence.
    + by apply (add_click_elsewhere ui canvases
                  (fun id0 => AddRectangle id0 (App.rectForm ui))).
    + by apply (add_click_elsewhere ui canvases
                  (fun id0 => AddCircle id0 (App.circleForm ui))).
    + by apply (add_click_elsewhere ui canvases
                  (fun id0 => AddText id0 (App.textForm ui))).
    + by apply (add_click_elsewhere ui canvases
                  (fun id0 => AddImage id0 (App.imageForm ui) loaded)).
    + destruct (App.canvasId ui) as [id0 |] eqn:E;
        [| split; [done | simpl; congruence]].
      destruct (App.no_canvas ui); [split; [done | simpl; congruence] |].
      pose proof (export_pdf_registry canvases id0) as Ereg.
      destruct (export_pdf canvases id0) as [res st]. simpl in *.
      subst st. split; [done | congruence].
    + destruct (App.canvasId ui) as [id0 |] eqn:E; [| done].
      destruct (App.no_canvas ui); [done |].
      pose proof (handle_frame canvases (Delete id0) id) as Hf. simpl in Hf.
      destruct (delete_canvas canvases id0) as [res st]. simpl in *.
      split; [| done]. apply Hf. congruence.
Qed.

(** X19: the client only ever touches the canvas it holds.  A session
    stored under another identifier, such as the one the component held
    before Initialize was clicked again, keeps its surface, its log and its
    dimensions through everything the client does afterwards, and is never
    deleted: the client leaves it on the server. *)
Theorem client_leaves_other_sessions (evs : list App.event) (ui : App.state)
    (canvases : registry) (id : string) (s : session) :
  canvases !! id = Some s ->
  App.canvasId ui <> Some id ->
  forallb (fun ev => negb (App.stores_under id ev)) evs = true ->
  snd (fst (App.play ui canvases evs)) !! id = Some s /\
  App.canvasId (fst (fst (App.play ui canvases evs))) <> Some id.
Proof.
  revert ui canvases.
  induction evs as [| ev evs IH]; intros ui canvases Hs Hid Hevs; [done |].
  simpl in Hevs. apply andb_true_iff in Hevs as [Hev Hevs].
  apply negb_true_iff in Hev.
  destruct (step_elsewhere ui canvases ev id Hid Hev) as [Hst Hc].
  cbn [App.play].
  destruct (App.step ui canvases ev) as [[ui1 st1] rs1]. simpl in Hst, Hc.
  rewrite Hs in Hst. specialize (IH ui1 st1 Hst Hc Hevs).
  by destruct (App.play ui1 st1 evs) as [[ui2 st2] rs2].
Qed.

End Orphans.

(** ** What the page can have refused *)

Section Refusals.

Context {R : Canvas.Rasterizer}.





End Refusals.

(** ** The further properties at work on the sample runs *)


Lemma other_sessions_untouched_witness :
  snd (handle (R := lattice) two_sessions
         (AddRectangle uuid_b (box 0 0 4 4 "#ff0000"))) !! uuid_a
    = two_sessions !! uuid_a /\
  fst (info (snd (handle (R := lattice) two_sessions
                    (AddRectangle uuid_b (box 0 0 4 4 "#ff0000")))) uuid_a)
    = fst (info two_sessions uuid_a) /\
  fst (preview (snd (handle (R := lattice) two_sessions
                       (AddRectangle uuid_b (box 0 0 4 4 "#ff0000")))) uuid_a)
    = fst (preview two_sessions uuid_a) /\
  fst (export_pdf (snd (handle (R := lattice) two_sessions
                          (AddRectangle uuid_b (box 0 0 4 4 "#ff0000"))))
         uuid_a)
    = fst (export_pdf two_sessions uuid_a).
Proof.
  apply (other_sessions_untouched (R := lattice) two_sessions
           (AddRectangle uuid_b (box 0 0 4 4 "#ff0000")) uuid_a).
  vm_compute. discriminate.
Defined.

Lemma not_found_exactly_when_unresolvable_witness :
  (fst (handle (R := lattice) sample_registry (GetInfo uuid_b))
     = SessionNotFound <->
   sample_registry !! uuid_b = None /\ uuid_b ∉ object_prototype) /\
  (sample_registry !! uuid_b = None -> uuid_b ∉ object_prototype ->
   snd (handle (R := lattice) sample_registry (GetInfo uuid_b))
     = sample_registry).
Proof.
  apply (not_found_exactly_when_unresolvable (R := lattice) sample_registry
           (GetInfo uuid_b) uuid_b).
  reflexivity.
Defined.

Lemma log_only_grows_witness :
  exists s',
    run (R := lattice) sample_registry short_history !! uuid_a = Some s' /\
    elements sample_session `prefix_of` elements s' /\
    (length (elements s')
       <= length (elements sample_session) + length short_history)%nat.
Proof.
  eexists. split; [vm_compute; reflexivity |].
  apply (log_only_grows (R := lattice) short_history sample_registry uuid_a
           sample_session).
  - reflexivity.
  - vm_compute. reflexivity.
  - vm_compute. reflexivity.
Defined.

Lemma dimensions_fixed_over_runs_witness :
  exists s',
    run (R := lattice) sample_registry short_history !! uuid_a = Some s' /\
    width s' = width sample_session /\ height s' = height sample_session /\
    Canvas.width (canvas s') = Canvas.width (canvas sample_session) /\
    Canvas.height (canvas s') = Canvas.height (canvas sample_session).
Proof.
  eexists. split; [vm_compute; reflexivity |].
  apply (dimensions_fixed_over_runs (R := lattice) short_history
           sample_registry uuid_a sample_session).
  - reflexivity.
  - vm_compute. reflexivity.
  - vm_compute. reflexivity.
Defined.

Lemma numeric_inits_keep_sessions_well_sized_witness :
  exists s,
    run (R := lattice) ∅ (Init uuid_a dims_800_600 :: short_history) !! uuid_a
      = Some s /\
    well_sized s.
Proof.
  eexists. split; [vm_compute; reflexivity |].
  apply (numeric_inits_keep_sessions_well_sized (R := lattice)
           (Init uuid_a dims_800_600 :: short_history) uuid_a).
  - reflexivity.
  - vm_compute. reflexivity.
Defined.








Lemma image_box_defaults_to_natural_size_witness :
  exists s' (e : element),
    snd (add_image (R := lattice) sample_registry uuid_a
           (picture_at "https://example.com/image.jpg" 300 100)
           (Some red_dot)) !! uuid_a = Some s' /\
    elements s' = (elements sample_session ++ [e])%list /\
    get e "url" = get (picture_at "https://example.com/image.jpg" 300 100) "url" /\
    get e "x" = get (picture_at "https://example.com/image.jpg" 300 100) "x" /\
    get e "y" = get (picture_at "https://example.com/image.jpg" 300 100) "y" /\
    get e "width" =
      (if truthy (get (picture_at "https://example.com/image.jpg" 300 100)
                      "width")
       then get (picture_at "https://example.com/image.jpg" 300 100) "width"
       else JNumber (Num (Canvas.img_width red_dot))) /\
    get e "height" =
      (if truthy (get (picture_at "https://example.com/image.jpg" 300 100)
                      "height")
       then get (picture_at "https://example.com/image.jpg" 300 100) "height"
       else JNumber (Num (Canvas.img_height red_dot))).
Proof.
  apply (image_box_defaults_to_natural_size (R := lattice) sample_registry
           uuid_a sample_session
           (picture_at "https://example.com/image.jpg" 300 100) red_dot).
  - vm_compute. reflexivity.
  - reflexivity.
Defined.

Lemma client_sessions_are_well_sized_witness :
  exists s,
    snd (fst (App.play (R := lattice) App.initial ∅ typing_and_clicking))
      !! uuid_b = Some s /\
    well_sized s.
Proof.
  eexists. split; [vm_compute; reflexivity |].
  apply (client_sessions_are_well_sized (R := lattice) typing_and_clicking
           uuid_b).
  vm_compute. reflexivity.
Defined.

Lemma client_leaves_other_sessions_witness :
  snd (fst (App.play (R := lattice) (fst (fst reinitialized))
              (snd (fst reinitialized))
              [App.Click App.AddRectangleButton; App.Click App.ResetCanvas]))
    !! uuid_a = Some sample_session /\
  App.canvasId
    (fst (fst (App.play (R := lattice) (fst (fst reinitialized))
                 (snd (fst reinitialized))
                 [App.Click App.AddRectangleButton;
                  App.Click App.ResetCanvas])))
    <> Some uuid_a.
Proof.
  apply (client_leaves_other_sessions (R := lattice)
           [App.Click App.AddRectangleButton; App.Click App.ResetCanvas]
           (fst (fst reinitialized)) (snd (fst reinitialized)) uuid_a
           sample_session).
  - vm_compute. reflexivity.
  - vm_compute. discriminate.
  - reflexivity.
Defined.

